(** * pager-adapter: the datasource client of [pkg/adapter/datasource.go]

    A shallow embedding of the cursor handling ([parseCursor]), the response
    parser ([ParseResponse]) and the page fetcher ([GetPage]), together with
    the parts of the Go standard library they call: [strconv.ParseInt],
    [strconv.FormatInt], [encoding/json] decoding into the response envelope,
    the split of the text of a URL by [net/url], and the HTTP client seen as
    an oracle that leaves a trace of effects. *)

From Stdlib Require Import ZArith Lia Bool List.
From Stdlib Require Import Ascii String.
From Stdlib Require Import Decimal DecimalString DecimalPos.
From stdpp Require Import base option gmap strings.

Local Open Scope Z_scope.

(** ** Machine integers

    Go's [int64] and [uint64] are modelled as [Z] with the wrap-around of the
    fixed-width types written out. *)

Module Int64.

Definition min_signed : Z := - 2 ^ 63.
Definition max_signed : Z := 2 ^ 63 - 1.
Definition max_unsigned : Z := 2 ^ 64 - 1.

Definition in_range (x : Z) : Prop := min_signed <= x <= max_signed.
Definition in_urange (x : Z) : Prop := 0 <= x <= max_unsigned.

(** Conversion to [uint64]: reduction modulo [2^64]. *)
Definition to_unsigned (x : Z) : Z := x mod 2 ^ 64.

(** Conversion to [int64]: the two's complement reading of the low 64 bits. *)
Definition to_signed (x : Z) : Z := (x + 2 ^ 63) mod 2 ^ 64 - 2 ^ 63.

(** [a + b] on [int64]. *)
Definition add (a b : Z) : Z := to_signed (a + b).

(** [-a] on [int64]. *)
Definition neg (a : Z) : Z := to_signed (- a).

(** [a + b], [a * b] and [-a] on [uint64]. *)
Definition uadd (a b : Z) : Z := to_unsigned (a + b).
Definition umul (a b : Z) : Z := to_unsigned (a * b).
Definition uneg (a : Z) : Z := to_unsigned (- a).

End Int64.

(** ** Strings as byte sequences *)

Definition byte_val (c : ascii) : Z := Z.of_N (N_of_ascii c).
Definition byte_of (z : Z) : ascii := ascii_of_N (Z.to_N z).

(** The double quote. *)
Definition dquote : ascii := "034"%char.

(** ** [strconv]

    [ParseInt] and [ParseUint] follow the Go sources at base 10 and bit size
    64, the only arguments this adapter passes.  [FormatInt] follows the
    general digit loop of [formatBits]; the table Go uses for the numbers
    below 100 and the two-digits-at-a-time loop it runs for base 10 write the
    same bytes. *)

Module strconv.

Inductive NumError := ErrSyntax | ErrRange.

(** [lower(c)]: [c | ('x' - 'X')]. *)
Definition lower (c : Z) : Z := Z.lor c 32.

(** The digit value of a byte in the loop of [ParseUint], [None] for a byte
    that is no digit in any base. *)
Definition digit_val (c : Z) : option Z :=
  if (48 <=? c) && (c <=? 57) then Some (c - 48)
  else if (97 <=? lower c) && (lower c <=? 122) then Some (lower c - 97 + 10)
  else None.

(** [cutoff]: the smallest number such that [cutoff * 10 > maxUint64]. *)
Definition cutoff10 : Z := Int64.max_unsigned / 10 + 1.

(** [maxVal] at bit size 64. *)
Definition maxVal : Z := Int64.max_unsigned.

(** The loop of [ParseUint] over the bytes of [s], [n] being the number read
    so far. *)
Fixpoint ParseUint_loop (s : string) (n : Z) : Z * option NumError :=
  match s with
  | EmptyString => (n, None)
  | String c s' =>
      match digit_val (byte_val c) with
      | None => (0, Some ErrSyntax)
      | Some d =>
          if 10 <=? d then (0, Some ErrSyntax)
          else if cutoff10 <=? n then (maxVal, Some ErrRange)
          else
            let n := Int64.umul n 10 in
            let n1 := Int64.uadd n d in
            if (n1 <? n) || (maxVal <? n1) then (maxVal, Some ErrRange)
            else ParseUint_loop s' n1
      end
  end.

(** [ParseUint(s, 10, 64)]. *)
Definition ParseUint (s : string) : Z * option NumError :=
  match s with
  | EmptyString => (0, Some ErrSyntax)
  | _ => ParseUint_loop s 0
  end.

(** [ParseInt(s, 10, 64)]. *)
Definition ParseInt (s : string) : Z * option NumError :=
  match s with
  | EmptyString => (0, Some ErrSyntax)
  | String c0 rest =>
      let '(neg, s1) :=
        if Z.eqb (byte_val c0) 43 then (false, rest)
        else if Z.eqb (byte_val c0) 45 then (true, rest)
        else (false, s) in
      let '(un, err) := ParseUint s1 in
      match err with
      | Some ErrSyntax => (0, Some ErrSyntax)
      | _ =>
          let cutoff := 2 ^ 63 in
          if negb neg && (cutoff <=? un) then (cutoff - 1, Some ErrRange)
          else if neg && (cutoff <? un) then (- cutoff, Some ErrRange)
          else
            let n := Int64.to_signed un in
            (if neg then Int64.neg n else n, None)
      end
  end.

(** The digit loop of [formatBits]: the digits of [u] are written in front of
    [acc], least significant first, as the Go loop fills its buffer from the
    end.  [fuel] stands for the buffer of 65 bytes. *)
Fixpoint formatBits_loop (fuel : nat) (u : Z) (acc : string) : string :=
  match fuel with
  | O => acc
  | S fuel' =>
      if 10 <=? u then
        let q := u / 10 in
        formatBits_loop fuel' q (String (byte_of (48 + (u - q * 10))) acc)
      else String (byte_of (48 + u)) acc
  end.

(** [formatBits(nil, u, 10, neg, false)]. *)
Definition formatBits (u : Z) (neg : bool) : string :=
  let u := if neg then Int64.uneg u else u in
  let a := formatBits_loop 65 u EmptyString in
  if neg then String (byte_of 45) a else a.

(** [FormatInt(i, 10)]. *)
Definition FormatInt (i : Z) : string :=
  formatBits (Int64.to_unsigned i) (i <? 0).

End strconv.

(** ** Decimal notation

    The reference for "the base-10 string of an integer" is the decimal
    printer of the standard library, [NilZero.string_of_int (Z.to_int x)].
    To compare [FormatInt] with it, the digits of the loop of [formatBits] are
    also produced as a [Decimal.uint], least significant digit first. *)

(** The decimal digit [d] put in front of [rest]. *)
Definition digit_cons (d : Z) (rest : Decimal.uint) : Decimal.uint :=
  match d with
  | 0 => D0 rest | 1 => D1 rest | 2 => D2 rest | 3 => D3 rest | 4 => D4 rest
  | 5 => D5 rest | 6 => D6 rest | 7 => D7 rest | 8 => D8 rest | _ => D9 rest
  end.

(** The digits of [u], least significant first, as the loop of [formatBits]
    finds them. *)
Fixpoint little_digits (fuel : nat) (u : Z) : Decimal.uint :=
  match fuel with
  | O => Nil
  | S fuel' =>
      if 10 <=? u then digit_cons (u - u / 10 * 10) (little_digits fuel' (u / 10))
      else digit_cons u Nil
  end.

(** *** A base-10 signed 64-bit integer

    The reference for "the string parses as a base-10 signed 64-bit
    integer": an optional sign, then one or more decimal digits, whose value
    over the unbounded integers lies in the range of [int64]. *)

Definition is_decimal_digit (c : ascii) : bool :=
  (48 <=? byte_val c) && (byte_val c <=? 57).

(** The value of a sequence of decimal digits read after [acc], [None] when
    a byte is not a digit. *)
Fixpoint decimal_value (s : string) (acc : Z) : option Z :=
  match s with
  | EmptyString => Some acc
  | String c s' =>
      if is_decimal_digit c then decimal_value s' (acc * 10 + (byte_val c - 48))
      else None
  end.

Definition int64_of_digits (neg : bool) (digits : string) : option Z :=
  match digits with
  | EmptyString => None
  | _ =>
      match decimal_value digits 0 with
      | Some v =>
          let n := if neg then - v else v in
          if (Int64.min_signed <=? n) && (n <=? Int64.max_signed) then Some n else None
      | None => None
      end
  end.

Definition int64_of_decimal (s : string) : option Z :=
  match s with
  | String c rest =>
      if byte_val c =? 43 then int64_of_digits false rest
      else if byte_val c =? 45 then int64_of_digits true rest
      else int64_of_digits false s
  | EmptyString => None
  end.

(** The part of [strconv.ParseInt] that follows the sign, used to compare it
    with the reference. *)
Definition ParseInt_unsigned (neg : bool) (s1 : string) : Z * option strconv.NumError :=
  let '(un, err) := strconv.ParseUint s1 in
  match err with
  | Some strconv.ErrSyntax => (0, Some strconv.ErrSyntax)
  | _ =>
      let cutoff := 2 ^ 63 in
      if negb neg && (cutoff <=? un) then (cutoff - 1, Some strconv.ErrRange)
      else if neg && (cutoff <? un) then (- cutoff, Some strconv.ErrRange)
      else
        let n := Int64.to_signed un in
        (if neg then Int64.neg n else n, None)
  end.

(** What the loop of [ParseUint] returns, against the decimal value. *)
Inductive loop_result (s : string) (n : Z) : Z * option strconv.NumError -> Prop :=
  | loop_value v :
      decimal_value s n = Some v -> v <= Int64.max_unsigned ->
      loop_result s n (v, None)
  | loop_range :
      (forall v, decimal_value s n = Some v -> Int64.max_unsigned < v) ->
      loop_result s n (strconv.maxVal, Some strconv.ErrRange)
  | loop_syntax :
      decimal_value s n = None ->
      loop_result s n (0, Some strconv.ErrSyntax).

(** ** Go values

    A slice is [None] when it is [nil]; [map[string]any] is a finite map over
    strings, [None] when it is [nil].  A [float64] held in an [any] is kept as
    the number literal it was converted from: the adapter never looks inside a
    record. *)

Definition slice (A : Type) : Type := option (list A).

#[warnings="-register-all"]
Inductive any : Type :=
  | any_nil
  | any_bool (b : bool)
  | any_float64 (literal : string)
  | any_string (s : string)
  | any_slice (l : list any)
  | any_map (m : gmap string any).

Definition object_map : Type := option (gmap string any).

(** The result of a call that may panic. *)
Inductive outcome (A : Type) : Type :=
  | Returned (a : A)
  | Panicked (reason : string).
Arguments Returned {A} a.
Arguments Panicked {A} reason.

(** ** The adapter framework *)

Module framework.

(** Modelled from the spec: the error codes of [api_adapter_v1], a package
    outside this repository.  The source uses [ERROR_CODE_INTERNAL],
    [ERROR_CODE_DATASOURCE_FAILED] and
    [ERROR_CODE_INVALID_PAGE_REQUEST_CONFIG]; [ERROR_CODE_INVALID_CURSOR] is
    the code the specification calls InvalidCursor, which no line of the
    source returns. *)
Inductive ErrorCode : Set :=
  | ERROR_CODE_INTERNAL
  | ERROR_CODE_DATASOURCE_FAILED
  | ERROR_CODE_INVALID_CURSOR
  | ERROR_CODE_INVALID_PAGE_REQUEST_CONFIG.

(** [framework.Error], with the two fields the adapter sets. *)
Record Error : Type := { Message : string; Code : ErrorCode }.

End framework.

(** ** [net/url], as far as [url.Parse] splits the text of a URL

    [http.NewRequestWithContext] hands the text of the URL to [url.Parse].
    [Parse] cuts the text at the first ['#']: what follows is the fragment.
    In what precedes, [parse] takes the scheme off and then splits the rest
    at the first ['?']: what follows is the query.  A scheme holds no ['?'],
    so the split falls at the same place with the scheme left on, as here.
    The scheme, the authority and the path are not split here; whether
    [Parse] accepts them is the check of the URL that [GetPage] is given. *)

Module url.

(** [strings.Cut(s, sep)] for a separator of one byte: the text before the
    first [sep], the text after it, and whether [sep] was found. *)
Fixpoint Cut (sep : ascii) (s : string) : string * string * bool :=
  match s with
  | EmptyString => (EmptyString, EmptyString, false)
  | String c s' =>
      if Ascii.eqb c sep then (EmptyString, s', true)
      else let '(before, after, found) := Cut sep s' in (String c before, after, found)
  end.

(** [strings.HasSuffix(s, sep)] for a separator of one byte. *)
Fixpoint HasSuffix (sep : ascii) (s : string) : bool :=
  match s with
  | EmptyString => false
  | String c s' =>
      match s' with
      | EmptyString => Ascii.eqb c sep
      | String _ _ => HasSuffix sep s'
      end
  end.

(** [strings.Count(s, sep)] for a separator of one byte. *)
Fixpoint Count (sep : ascii) (s : string) : nat :=
  match s with
  | EmptyString => O
  | String c s' => ((if Ascii.eqb c sep then 1 else 0) + Count sep s')%nat
  end.

(** [s[:len(s)-1]]. *)
Fixpoint but_last (s : string) : string :=
  match s with
  | EmptyString => EmptyString
  | String c s' =>
      match s' with
      | EmptyString => EmptyString
      | String _ _ => String c (but_last s')
      end
  end.

(** Whether [s] holds the byte [c]. *)
Fixpoint contains (c : ascii) (s : string) : bool :=
  match s with
  | EmptyString => false
  | String a s' => Ascii.eqb a c || contains c s'
  end.

(** Whether [s] holds neither ['#'] nor ['?'], the bytes at which [Parse]
    splits a text. *)
Definition unsplit (s : string) : bool :=
  negb (contains "#"%char s) && negb (contains "?"%char s).

(** The parts of a [url.URL] that the splits at ['#'] and ['?'] give:
    [BeforeQuery] is the scheme, the authority and the path as they were
    written; [RawQuery] is the query, without the ['?'], which is what the
    request carries as its query string; [Frag] is the fragment as it was
    written, without the ['#'], which [setFragment] unescapes and which is
    not sent. *)
Record URL : Type := {
  BeforeQuery : string;
  ForceQuery : bool;
  RawQuery : string;
  Frag : string
}.

Definition Parse (rawURL : string) : URL :=
  let '(u, frag, _) := Cut "#"%char rawURL in
  if HasSuffix "?"%char u && (Count "?"%char u =? 1)%nat then
    {| BeforeQuery := but_last u; ForceQuery := true; RawQuery := ""; Frag := frag |}
  else
    let '(rest, query, _) := Cut "?"%char u in
    {| BeforeQuery := rest; ForceQuery := false; RawQuery := query; Frag := frag |}.

End url.

(** ** [net/http], as far as [GetPage] uses it *)

Module http.

Definition StatusOK : Z := 200.
Definition MethodGet : string := "GET".

(** [http.Header]: canonical header names to their values, in the order they
    were added. *)
Definition Header : Type := gmap string (list string).

(** [h.Add(key, value)] for a [key] already in canonical form. *)
Definition Header_Add (key value : string) (h : Header) : Header :=
  <[ key := default [] (h !! key) ++ [value] ]> h.

(** [h.Get(key)] for a [key] already in canonical form: the first value, or
    the empty string. *)
Definition Header_Get (key : string) (h : Header) : string :=
  match h !! key with
  | Some (v :: _) => v
  | _ => ""
  end.

(** [http.Request]: the method, the URL as [url.Parse] split it, and the
    header. *)
Record Request : Type := { Method : string; URL : url.URL; ReqHeader : Header }.

(** What [io.ReadAll(res.Body)] gives: the bytes of the body, or an error. *)
Inductive Body : Type :=
  | body_bytes (b : string)
  | body_read_error.

Record Response : Type := { StatusCode : Z; RespHeader : Header; RespBody : Body }.

(** [http.Client]: [Do] answers a request with a response, or with [None]
    for a transport error.  The answer is a function of the request: what a
    client answers to one call is what it is asked here, not how its answers
    change from call to call. *)
Record Client : Type := { Do : Request -> option Response }.

End http.

(** ** The adapter package *)

Module Request.
(** Modelled from the spec: [Request] is declared in another file of the
    package; the fields are the ones [GetPage] reads, the page size being an
    integer written with [%d]. *)
Record t : Type := {
  BaseURL : string;
  EntityExternalID : string;
  PageSize : Z;
  Cursor : string;
  HTTPAuthorization : string
}.
End Request.

Module Response.
(** Modelled from the spec: [Response] is declared in another file of the
    package; the fields are the ones [GetPage] writes. *)
Record t : Type := {
  StatusCode : Z;
  RetryAfterHeader : string;
  Objects : slice object_map;
  NextCursor : string
}.
End Response.

Module DatasourceResponse.
(** The envelope of a page as the datasource sends it, with the JSON names
    [teams], [more], [limit] and [offset]. *)
Record t : Type := {
  Objects : slice object_map;
  More : bool;
  Limit : Z;
  Offset : Z
}.
End DatasourceResponse.

(** [Datasource] holds the HTTP client the pages are fetched with.  The
    pointers to the datasource, to its client and to the request are taken
    not to be nil: [GetPage] dereferences them at lines 97 and 123 with no
    check, and a nil one makes it panic there. *)
Record Datasource : Type := { Client : http.Client }.

(** ** [encoding/json]

    [Unmarshal] first checks the whole input against the JSON grammar
    ([checkValid]) and then decodes it into the target.  The grammar and the
    texts of the syntax errors follow the scanner of the Go library; the
    decoding is written for the one target the adapter has, a nil
    [*DatasourceResponse]. *)

Module json.

(** A JSON text as the scanner sees it: a number is kept as its literal, a
    string as the bytes between its quotes. *)
#[warnings="-register-all"]
Inductive value : Type :=
  | Null
  | Bool (b : bool)
  | Number (literal : string)
  | Str (raw : string)
  | Array (elems : list value)
  | Object (members : list (string * value)).

(** The result of reading a prefix of the input. *)
Inductive read (A : Type) : Type :=
  | Read (a : A) (rest : string)
  | Bad (msg : string).
Arguments Read {A} a rest.
Arguments Bad {A} msg.

Definition hex_digit (n : Z) : ascii :=
  byte_of (if n <? 10 then 48 + n else 87 + n).

(** [quoteChar]: the byte as the error texts show it. *)
Definition quoteChar (c : ascii) : string :=
  let n := byte_val c in
  let q (body : string) := "'" +:+ body +:+ "'" in
  let hex2 := String (hex_digit (n / 16)) (String (hex_digit (n mod 16)) "") in
  if n =? 39 then q "\'"
  else if n =? 34 then q (String c "")
  else if n =? 92 then q "\\"
  else if n =? 7 then q "\a"
  else if n =? 8 then q "\b"
  else if n =? 12 then q "\f"
  else if n =? 10 then q "\n"
  else if n =? 13 then q "\r"
  else if n =? 9 then q "\t"
  else if n =? 11 then q "\v"
  else if (n <? 32) || (n =? 127) then q ("\x" +:+ hex2)
  else if n <? 128 then q (String c "")
  else if (n <? 161) || (n =? 173) then q ("\u00" +:+ hex2)
  else q (String (byte_of (192 + n / 64)) (String (byte_of (128 + n mod 64)) "")).

Definition invalid_character {A} (c : ascii) (context : string) : read A :=
  Bad ("invalid character " +:+ quoteChar c +:+ " " +:+ context).

Definition unexpected_end {A} : read A := Bad "unexpected end of JSON input".

Definition is_space (c : ascii) : bool :=
  let n := byte_val c in (n =? 32) || (n =? 9) || (n =? 13) || (n =? 10).

Definition is_digit (c : ascii) : bool :=
  let n := byte_val c in (48 <=? n) && (n <=? 57).

Definition is_hex (c : ascii) : bool :=
  let n := byte_val c in
  is_digit c || ((97 <=? n) && (n <=? 102)) || ((65 <=? n) && (n <=? 70)).

Fixpoint skip_space (s : string) : string :=
  match s with
  | String c s' => if is_space c then skip_space s' else s
  | EmptyString => s
  end.

Definition string_of_rev (l : list ascii) : string :=
  fold_left (fun acc c => String c acc) l EmptyString.

(** The rest of a literal [true], [false] or [null] after its first byte. *)
Fixpoint scan_literal (name : string) (expected : list ascii) (s : string) : read unit :=
  match expected with
  | [] => Read tt s
  | e :: expected' =>
      match s with
      | EmptyString => unexpected_end
      | String c s' =>
          if Ascii.eqb c e then scan_literal name expected' s'
          else invalid_character c
                 ("in literal " +:+ name +:+ " (expecting '" +:+ String e "" +:+ "')")
      end
  end.

(** The states of the scanner inside a string. *)
Inductive string_state : Set :=
  | InString | InStringEsc | InStringEscU (seen : nat).

(** A string after its opening quote: the bytes up to the closing quote. *)
Fixpoint scan_string (st : string_state) (s : string) (acc : list ascii) : read string :=
  match s with
  | EmptyString => unexpected_end
  | String c s' =>
      match st with
      | InString =>
          if Ascii.eqb c dquote then Read (string_of_rev acc) s'
          else if Ascii.eqb c "\"%char then scan_string InStringEsc s' (c :: acc)
          else if byte_val c <? 32 then invalid_character c "in string literal"
          else scan_string InString s' (c :: acc)
      | InStringEsc =>
          if existsb (Ascii.eqb c)
               ["b"; "f"; "n"; "r"; "t"; "\"; "/"; dquote]%char
          then scan_string InString s' (c :: acc)
          else if Ascii.eqb c "u"%char then scan_string (InStringEscU 0) s' (c :: acc)
          else invalid_character c "in string escape code"
      | InStringEscU seen =>
          if is_hex c
          then scan_string (if (seen =? 3)%nat then InString else InStringEscU (S seen))
                 s' (c :: acc)
          else invalid_character c "in \u hexadecimal character escape"
      end
  end.

(** The states of the scanner inside a number. *)
Inductive number_state : Set :=
  | StNeg | St0 | St1 | StDot | StDot0 | StE | StESign | StE0.

(** A number after its first byte, read in state [st]: the bytes of the
    literal that follow, up to the first byte that is not part of it. *)
Fixpoint scan_number (st : number_state) (s : string) (acc : list ascii) : read string :=
  let finish := Read (string_of_rev acc) s in
  match s with
  | EmptyString =>
      match st with
      | St0 | St1 | StDot0 | StE0 => finish
      | _ => unexpected_end
      end
  | String c s' =>
      let go st' := scan_number st' s' (c :: acc) in
      let at_ c' := Ascii.eqb c c' in
      match st with
      | StNeg =>
          if at_ "0"%char then go St0
          else if is_digit c then go St1
          else invalid_character c "in numeric literal"
      | St1 =>
          if is_digit c then go St1
          else if at_ "."%char then go StDot
          else if at_ "e"%char || at_ "E"%char then go StE
          else finish
      | St0 =>
          if at_ "."%char then go StDot
          else if at_ "e"%char || at_ "E"%char then go StE
          else finish
      | StDot =>
          if is_digit c then go StDot0
          else invalid_character c "after decimal point in numeric literal"
      | StDot0 =>
          if is_digit c then go StDot0
          else if at_ "e"%char || at_ "E"%char then go StE
          else finish
      | StE =>
          if at_ "+"%char || at_ "-"%char then go StESign
          else if is_digit c then go StE0
          else invalid_character c "in exponent of numeric literal"
      | StESign =>
          if is_digit c then go StE0
          else invalid_character c "in exponent of numeric literal"
      | StE0 =>
          if is_digit c then go StE0 else finish
      end
  end.

(** [maxNestingDepth] of the scanner. *)
Definition maxNestingDepth : N := 10000.

(** One JSON value, read by recursive descent; the contexts of the error
    texts are the states of the Go scanner.  [depth] is the number of arrays
    and objects that are open; every call reads at least one byte, so the
    length of the input is fuel enough. *)
Fixpoint scan_value (fuel : nat) (depth : N) (s : string) {struct fuel} : read value :=
  match fuel with
  | O => Bad "out of fuel"
  | S fuel' =>
      match skip_space s with
      | EmptyString => unexpected_end
      | String c s' =>
          let at_ c' := Ascii.eqb c c' in
          if at_ "{"%char then
            if (maxNestingDepth <=? depth)%N
            then invalid_character c "exceeded max depth"
            else
              match skip_space s' with
              | EmptyString => unexpected_end
              | String c1 s1 =>
                  if Ascii.eqb c1 "}"%char then Read (Object []) s1
                  else scan_member fuel' (N.succ depth) s' []
              end
          else if at_ "["%char then
            if (maxNestingDepth <=? depth)%N
            then invalid_character c "exceeded max depth"
            else
              match skip_space s' with
              | EmptyString => unexpected_end
              | String c1 s1 =>
                  if Ascii.eqb c1 "]"%char then Read (Array []) s1
                  else
                    match scan_value fuel' (N.succ depth) s' with
                    | Bad msg => Bad msg
                    | Read v rest => scan_array_rest fuel' (N.succ depth) rest [v]
                    end
              end
          else if at_ dquote then
            match scan_string InString s' [] with
            | Bad msg => Bad msg
            | Read raw rest => Read (Str raw) rest
            end
          else if at_ "-"%char then
            match scan_number StNeg s' [c] with
            | Bad msg => Bad msg
            | Read lit rest => Read (Number lit) rest
            end
          else if at_ "0"%char then
            match scan_number St0 s' [c] with
            | Bad msg => Bad msg
            | Read lit rest => Read (Number lit) rest
            end
          else if is_digit c then
            match scan_number St1 s' [c] with
            | Bad msg => Bad msg
            | Read lit rest => Read (Number lit) rest
            end
          else if at_ "t"%char then
            match scan_literal "true" ["r"; "u"; "e"]%char s' with
            | Bad msg => Bad msg
            | Read _ rest => Read (Bool true) rest
            end
          else if at_ "f"%char then
            match scan_literal "false" ["a"; "l"; "s"; "e"]%char s' with
            | Bad msg => Bad msg
            | Read _ rest => Read (Bool false) rest
            end
          else if at_ "n"%char then
            match scan_literal "null" ["u"; "l"; "l"]%char s' with
            | Bad msg => Bad msg
            | Read _ rest => Read Null rest
            end
          else invalid_character c "looking for beginning of value"
      end
  end

(** After an array element: a comma and the next element, or the end. *)
with scan_array_rest (fuel : nat) (depth : N) (s : string) (acc : list value)
  {struct fuel} : read value :=
  match fuel with
  | O => Bad "out of fuel"
  | S fuel' =>
      match skip_space s with
      | EmptyString => unexpected_end
      | String c s' =>
          if Ascii.eqb c ","%char then
            match scan_value fuel' depth s' with
            | Bad msg => Bad msg
            | Read v rest => scan_array_rest fuel' depth rest (v :: acc)
            end
          else if Ascii.eqb c "]"%char then Read (Array (rev acc)) s'
          else invalid_character c "after array element"
      end
  end

(** A member of an object: the key, a colon, the value, and what follows. *)
with scan_member (fuel : nat) (depth : N) (s : string) (acc : list (string * value))
  {struct fuel} : read value :=
  match fuel with
  | O => Bad "out of fuel"
  | S fuel' =>
      match skip_space s with
      | EmptyString => unexpected_end
      | String c s' =>
          if negb (Ascii.eqb c dquote)
          then invalid_character c "looking for beginning of object key string"
          else
            match scan_string InString s' [] with
            | Bad msg => Bad msg
            | Read key rest =>
                match skip_space rest with
                | EmptyString => unexpected_end
                | String c1 s1 =>
                    if negb (Ascii.eqb c1 ":"%char)
                    then invalid_character c1 "after object key"
                    else
                      match scan_value fuel' depth s1 with
                      | Bad msg => Bad msg
                      | Read v rest1 =>
                          let acc := (key, v) :: acc in
                          match skip_space rest1 with
                          | EmptyString => unexpected_end
                          | String c2 s2 =>
                              if Ascii.eqb c2 ","%char then scan_member fuel' depth s2 acc
                              else if Ascii.eqb c2 "}"%char then Read (Object (rev acc)) s2
                              else invalid_character c2 "after object key:value pair"
                          end
                      end
                end
            end
      end
  end.

(** [checkValid]: the whole input is one JSON value between white space. *)
Definition checkValid (data : string) : read value :=
  match scan_value (S (String.length data)) 0 data with
  | Bad msg => Bad msg
  | Read v rest =>
      match skip_space rest with
      | EmptyString => Read v EmptyString
      | String c _ => invalid_character c "after top-level value"
      end
  end.

(** *** Decoding *)

Definition RuneError : Z := 65533.

Definition in_bytes (lo hi : Z) (c : ascii) : bool :=
  (lo <=? byte_val c) && (byte_val c <=? hi).

(** [utf8.DecodeRune]: the first rune of [s] and its width in bytes, or
    [(RuneError, 1)] when [s] does not start with a well-formed encoding. *)
Definition DecodeRune (s : string) : Z * nat :=
  match s with
  | EmptyString => (RuneError, 0%nat)
  | String c0 s1 =>
      let b0 := byte_val c0 in
      let low c := byte_val c - 128 in
      if b0 <? 128 then (b0, 1%nat)
      else if (194 <=? b0) && (b0 <=? 223) then
        match s1 with
        | String c1 _ =>
            if in_bytes 128 191 c1 then ((b0 - 192) * 64 + low c1, 2%nat)
            else (RuneError, 1%nat)
        | _ => (RuneError, 1%nat)
        end
      else if (224 <=? b0) && (b0 <=? 239) then
        match s1 with
        | String c1 (String c2 _) =>
            if in_bytes (if b0 =? 224 then 160 else 128)
                        (if b0 =? 237 then 159 else 191) c1
               && in_bytes 128 191 c2
            then ((b0 - 224) * 4096 + low c1 * 64 + low c2, 3%nat)
            else (RuneError, 1%nat)
        | _ => (RuneError, 1%nat)
        end
      else if (240 <=? b0) && (b0 <=? 244) then
        match s1 with
        | String c1 (String c2 (String c3 _)) =>
            if in_bytes (if b0 =? 240 then 144 else 128)
                        (if b0 =? 244 then 143 else 191) c1
               && in_bytes 128 191 c2 && in_bytes 128 191 c3
            then ((b0 - 240) * 262144 + low c1 * 4096 + low c2 * 64 + low c3, 4%nat)
            else (RuneError, 1%nat)
        | _ => (RuneError, 1%nat)
        end
      else (RuneError, 1%nat)
  end.

(** [utf8.EncodeRune]. *)
Definition EncodeRune (r : Z) : string :=
  let r := if (r <? 0) || (1114111 <? r) || ((55296 <=? r) && (r <=? 57343))
           then RuneError else r in
  let tail n := byte_of (128 + n mod 64) in
  if r <=? 127 then String (byte_of r) ""
  else if r <=? 2047 then String (byte_of (192 + r / 64)) (String (tail r) "")
  else if r <=? 65535 then
    String (byte_of (224 + r / 4096)) (String (tail (r / 64)) (String (tail r) ""))
  else
    String (byte_of (240 + r / 262144))
      (String (tail (r / 4096)) (String (tail (r / 64)) (String (tail r) ""))).

Fixpoint drop_bytes (n : nat) (s : string) : string :=
  match n, s with
  | S n', String _ s' => drop_bytes n' s'
  | _, _ => s
  end.

Definition hex_val (c : ascii) : Z :=
  let n := byte_val c in
  if is_digit c then n - 48
  else if (97 <=? n) && (n <=? 102) then n - 87
  else if (65 <=? n) && (n <=? 70) then n - 55
  else -1.

(** [getu4]: the rune of an escape [\uXXXX] at the start of [s], or [-1]. *)
Definition getu4 (s : string) : Z :=
  match s with
  | String b (String u (String h1 (String h2 (String h3 (String h4 _))))) =>
      if Ascii.eqb b "\"%char && Ascii.eqb u "u"%char
         && is_hex h1 && is_hex h2 && is_hex h3 && is_hex h4
      then ((hex_val h1 * 16 + hex_val h2) * 16 + hex_val h3) * 16 + hex_val h4
      else -1
  | _ => -1
  end.

(** [utf16.DecodeRune]. *)
Definition utf16_DecodeRune (r1 r2 : Z) : Z :=
  if (55296 <=? r1) && (r1 <? 56320) && (56320 <=? r2) && (r2 <? 57344)
  then (r1 - 55296) * 1024 + (r2 - 56320) + 65536
  else RuneError.

Definition unescape (c : ascii) : ascii :=
  if Ascii.eqb c "b"%char then byte_of 8
  else if Ascii.eqb c "f"%char then byte_of 12
  else if Ascii.eqb c "n"%char then byte_of 10
  else if Ascii.eqb c "r"%char then byte_of 13
  else if Ascii.eqb c "t"%char then byte_of 9
  else c.

(** [unquote] for the bytes between the quotes of a string the scanner has
    accepted: escapes are replaced and the result is well-formed UTF-8. *)
Fixpoint unquote_loop (fuel : nat) (s : string) : string :=
  match fuel, s with
  | S fuel', String c s' =>
      if Ascii.eqb c "\"%char then
        match s' with
        | String e s'' =>
            if Ascii.eqb e "u"%char then
              let rr := getu4 s in
              let s6 := drop_bytes 6 s in
              if (55296 <=? rr) && (rr <? 57344) then
                let dec := utf16_DecodeRune rr (getu4 s6) in
                if negb (dec =? RuneError)
                then EncodeRune dec +:+ unquote_loop fuel' (drop_bytes 6 s6)
                else EncodeRune RuneError +:+ unquote_loop fuel' s6
              else EncodeRune rr +:+ unquote_loop fuel' s6
            else String (unescape e) (unquote_loop fuel' s'')
        | EmptyString => EmptyString
        end
      else if byte_val c <? 128 then String c (unquote_loop fuel' s')
      else
        let '(rr, size) := DecodeRune s in
        EncodeRune rr +:+ unquote_loop fuel' (drop_bytes size s)
  | _, _ => EmptyString
  end.

Definition unquote (raw : string) : string :=
  unquote_loop (String.length raw) raw.

(** The errors [Unmarshal] returns for this target. *)
Inductive error : Type :=
  | SyntaxError (msg : string)
  | UnmarshalTypeError (Value Type_ Struct Field : string).

(** The method [Error()] of an error value, which [%v] prints. *)
Definition Error (e : error) : string :=
  match e with
  | SyntaxError msg => msg
  | UnmarshalTypeError v t st f =>
      if negb (String.eqb st "") || negb (String.eqb f "")
      then "json: cannot unmarshal " +:+ v +:+ " into Go struct field "
             +:+ st +:+ "." +:+ f +:+ " of type " +:+ t
      else "json: cannot unmarshal " +:+ v +:+ " into Go value of type " +:+ t
  end.

(** [saveError]: the first error is the one that is reported. *)
Definition saveError (saved new : option error) : option error :=
  match saved with
  | Some _ => saved
  | None => new
  end.

(** The name of the kind of a JSON value in an [UnmarshalTypeError]. *)
Definition kind_name (v : value) : string :=
  match v with
  | Null => "null"
  | Bool _ => "bool"
  | Number _ => "number"
  | Str _ => "string"
  | Array _ => "array"
  | Object _ => "object"
  end.

(** Leading decimal digits of [s]: their value on top of [acc], their
    number on top of [n], and the bytes after them. *)
Fixpoint read_digits (s : string) (acc n : Z) : Z * Z * string :=
  match s with
  | String c s' =>
      if is_digit c then read_digits s' (acc * 10 + (byte_val c - 48)) (n + 1)
      else (acc, n, s)
  | EmptyString => (acc, n, s)
  end.

(** Whether the number literal is too large for a [float64], so that
    [strconv.ParseFloat] reports a range error: its magnitude is at least
    [2^1024 - 2^970], half a unit in the last place above the largest
    finite value. *)
Definition float64_overflow (literal : string) : bool :=
  let s := match literal with
           | String c s' => if Ascii.eqb c "-"%char then s' else literal
           | EmptyString => literal
           end in
  let '(m1, _, r1) := read_digits s 0 0 in
  let '(m, fraclen, r2) :=
    match r1 with
    | String c r => if Ascii.eqb c "."%char then read_digits r m1 0 else (m1, 0, r1)
    | EmptyString => (m1, 0, r1)
    end in
  let e :=
    match r2 with
    | String _ (String c r) =>
        if Ascii.eqb c "-"%char then - fst (fst (read_digits r 0 0))
        else if Ascii.eqb c "+"%char then fst (fst (read_digits r 0 0))
        else fst (fst (read_digits (String c r) 0 0))
    | _ => 0
    end in
  let e10 := e - fraclen in
  let limit := 2 ^ 1024 - 2 ^ 970 in
  if m =? 0 then false
  else if 0 <=? e10 then limit <=? m * 10 ^ e10
  else limit * 10 ^ (- e10) <=? m.

(** A JSON value stored in an [any] (what [valueInterface] builds), with the
    first error met on the way.  [ctx] makes the error for a number that no
    [float64] can hold. *)
Fixpoint to_any (ctx : string -> error) (v : value) : any * option error :=
  match v with
  | Null => (any_nil, None)
  | Bool b => (any_bool b, None)
  | Number lit =>
      if float64_overflow lit then (any_nil, Some (ctx ("number " +:+ lit)))
      else (any_float64 lit, None)
  | Str raw => (any_string (unquote raw), None)
  | Array elems =>
      let fix go (l : list value) : list any * option error :=
        match l with
        | [] => ([], None)
        | x :: l' =>
            let '(a, e1) := to_any ctx x in
            let '(rest, e2) := go l' in
            (a :: rest, saveError e1 e2)
        end in
      let '(l, e) := go elems in (any_slice l, e)
  | Object members =>
      let fix go (l : list (string * value)) (m : gmap string any)
        : gmap string any * option error :=
        match l with
        | [] => (m, None)
        | (k, x) :: l' =>
            let '(a, e1) := to_any ctx x in
            let '(m', e2) := go l' (<[ unquote k := a ]> m) in
            (m', saveError e1 e2)
        end in
      let '(m, e) := go members ∅ in (any_map m, e)
  end.

(** The members of a JSON object stored, one after the other, into the
    [map[string]any] [m]: each value is built afresh and set at its key,
    over what was there. *)
Fixpoint to_map (ctx : string -> error) (members : list (string * value))
  (m : gmap string any) : gmap string any * option error :=
  match members with
  | [] => (m, None)
  | (k, x) :: members' =>
      let '(a, e1) := to_any ctx x in
      let '(m', e2) := to_map ctx members' (<[ unquote k := a ]> m) in
      (m', saveError e1 e2)
  end.

(** [foldName]: the runes of a key, folded for the comparison that ignores
    case.  Lower-case ASCII letters go to upper case; of the runes outside
    ASCII only the long s (U+017F) and the Kelvin sign (U+212A) fold to an
    ASCII letter, and the others are left as they are, which makes no
    difference when the other side is an ASCII name. *)
Fixpoint foldName_loop (fuel : nat) (s : string) : list Z :=
  match fuel, s with
  | S fuel', String c s' =>
      let n := byte_val c in
      if n <? 128 then
        (if (97 <=? n) && (n <=? 122) then n - 32 else n) :: foldName_loop fuel' s'
      else
        let '(r, size) := DecodeRune s in
        (if r =? 383 then 83 else if r =? 8490 then 75 else r)
          :: foldName_loop fuel' (drop_bytes size s)
  | _, _ => []
  end.

Definition foldName (s : string) : list Z := foldName_loop (String.length s) s.

(** Whether the key of a member selects the field with the JSON name
    [name]: an exact match, or a match of the folded names. *)
Definition key_selects (name key : string) : bool :=
  String.eqb key name || bool_decide (foldName key = foldName name).

Import DatasourceResponse.

(** The zero value of the struct, which [Unmarshal] allocates for a nil
    pointer before it decodes anything but [null] into it. *)
Definition zero : DatasourceResponse.t :=
  {| Objects := None; More := false; Limit := 0; Offset := 0 |}.

Definition field_error (field value type_ : string) : error :=
  UnmarshalTypeError value type_ "DatasourceResponse" field.

(** One element of the array of the field [teams], decoded into the
    element [stored] that the slice holds at that index (nil for a new
    element): [null] sets it to nil, an object is stored into the map that
    is there, made first when there is none, and any other value is an error
    that leaves the element as it is. *)
Definition decode_object_map (stored : object_map) (v : value)
  : object_map * option error :=
  match v with
  | Null => (None, None)
  | Object members =>
      let '(m, e) :=
        to_map (fun val => field_error "teams" val "float64") members
               (default ∅ stored) in
      (Some m, e)
  | _ => (stored, Some (field_error "teams" (kind_name v) "map[string]interface {}"))
  end.

(** The elements of an array decoded, index by index, into the elements
    [backing] of the array under the slice: the new elements, what is left
    of [backing] past them, and the first error. *)
Fixpoint decode_elems (backing : list object_map) (l : list value)
  : list object_map * list object_map * option error :=
  match l with
  | [] => ([], backing, None)
  | v :: l' =>
      let '(m, e1) := decode_object_map (default None (head backing)) v in
      let '(rest, unused, e2) := decode_elems (tail backing) l' in
      (m :: rest, unused, saveError e1 e2)
  end.

(** A value stored in a field of type [int64]. *)
Definition decode_int64 (field : string) (old : Z) (v : value) : Z * option error :=
  match v with
  | Null => (old, None)
  | Number lit =>
      match strconv.ParseInt lit with
      | (n, None) => (n, None)
      | (_, Some _) => (old, Some (field_error field ("number " +:+ lit) "int64"))
      end
  | _ => (old, Some (field_error field (kind_name v) "int64"))
  end.

(** The struct being filled, and with it what the array under the slice
    [Objects] holds past the length of the slice: the elements that an
    earlier, longer array for [teams] left there.  A slice shows only its
    own length, so [spare] is no part of the result; it is kept because a
    later array for [teams] decodes into those elements again. *)
Record target : Type := {
  filled : DatasourceResponse.t;
  spare : list object_map
}.

(** One member of the top-level object, stored in the field its key selects;
    a key that selects no field is skipped.  For [teams], [null] sets the
    slice to nil, an empty array sets it to a new empty slice, and an array
    is decoded element by element into the elements the slice and its array
    hold, the slice taking the length of the array.  For the other fields
    [null] leaves the field as it is. *)
Definition decode_member (tg : target) (raw_key : string) (v : value)
  : target * option error :=
  let st := filled tg in
  let key := unquote raw_key in
  if key_selects "teams" key then
    match v with
    | Null =>
        ({| filled := {| Objects := None; More := More st;
                       Limit := Limit st; Offset := Offset st |};
            spare := [] |}, None)
    | Array [] =>
        ({| filled := {| Objects := Some []; More := More st;
                       Limit := Limit st; Offset := Offset st |};
            spare := [] |}, None)
    | Array elems =>
        let '(l, unused, e) := decode_elems (default [] (Objects st) ++ spare tg) elems in
        ({| filled := {| Objects := Some l; More := More st;
                       Limit := Limit st; Offset := Offset st |};
            spare := unused |}, e)
    | _ => (tg, Some (field_error "teams" (kind_name v) "[]map[string]interface {}"))
    end
  else if key_selects "more" key then
    match v with
    | Null => (tg, None)
    | Bool b =>
        ({| filled := {| Objects := Objects st; More := b;
                       Limit := Limit st; Offset := Offset st |};
            spare := spare tg |}, None)
    | _ => (tg, Some (field_error "more" (kind_name v) "bool"))
    end
  else if key_selects "limit" key then
    let '(n, e) := decode_int64 "limit" (Limit st) v in
    ({| filled := {| Objects := Objects st; More := More st;
                   Limit := n; Offset := Offset st |};
        spare := spare tg |}, e)
  else if key_selects "offset" key then
    let '(n, e) := decode_int64 "offset" (Offset st) v in
    ({| filled := {| Objects := Objects st; More := More st;
                   Limit := Limit st; Offset := n |};
        spare := spare tg |}, e)
  else (tg, None).

Fixpoint decode_members (tg : target) (members : list (string * value))
  : target * option error :=
  match members with
  | [] => (tg, None)
  | (k, v) :: members' =>
      let '(tg1, e1) := decode_member tg k v in
      let '(tg2, e2) := decode_members tg1 members' in
      (tg2, saveError e1 e2)
  end.

(** [json.Unmarshal(data, &p)] for [var p *DatasourceResponse]: the pointer
    left in [p] ([None] for nil) and the error returned.  The JSON value
    [null] leaves the pointer nil and is no error. *)
Definition Unmarshal (data : string) : option DatasourceResponse.t * option error :=
  match checkValid data with
  | Bad msg => (None, Some (SyntaxError msg))
  | Read Null _ => (None, None)
  | Read (Object members) _ =>
      let '(tg, e) := decode_members {| filled := zero; spare := [] |} members in
      (Some (filled tg), e)
  | Read v _ =>
      (Some zero,
       Some (UnmarshalTypeError (kind_name v) "adapter.DatasourceResponse" "" ""))
  end.

End json.

(** The effects of one call of [GetPage], in the order they happen. *)
Inductive event : Type :=
  | EvDo (req : http.Request)
  | EvReadAll
  | EvBodyClose
  | EvCancel.

(** A computation that appends its effects to a trace. *)
Definition traced (A : Type) : Type := list event -> A * list event.

#[global] Instance traced_ret : MRet traced := fun A a tr => (a, tr).

#[global] Instance traced_bind : MBind traced :=
  fun A B k m tr => let '(a, tr') := m tr in k a tr'.

Definition emit (ev : event) : traced unit := fun tr => (tt, tr ++ [ev]).

(** [defer f()] followed by [m]: the deferred call runs when [m] is left, by
    a return or by a panic. *)
Definition defer {A} (ev : event) (m : traced A) : traced A :=
  fun tr => let '(a, tr') := m tr in (a, tr' ++ [ev]).

Import framework.

Definition parseCursor (cursor : string) : Z * option Error :=
  if String.eqb cursor "" then (0, None)
  else
    let '(parsedOffset, parseErr) := strconv.ParseInt cursor in
    match parseErr with
    | Some _ =>
        (0, Some {| Message := "Request cursor conversion to int64 failed.";
                    Code := ERROR_CODE_INVALID_PAGE_REQUEST_CONFIG |})
    | None => (parsedOffset, None)
    end.

Section Adapter.

(** [json.Unmarshal(body, &data)] for [data] of type [*DatasourceResponse],
    initially [nil]: the pointer it leaves in [data] ([None] for [nil]) and
    the error it returns, if any. *)
Variable json_Unmarshal : string -> option DatasourceResponse.t * option json.error.

(** Whether [http.NewRequestWithContext] accepts the text of the URL, that
    is whether [url.Parse] returns no error for it. *)
Variable url_ok : string -> bool.

Definition ParseResponse (body : string)
  : outcome (slice object_map * string * option Error) :=
  let '(data, unmarshalErr) := json_Unmarshal body in
  match unmarshalErr with
  | Some err =>
      Returned (None, "",
        Some {| Message := "Failed to unmarshal the datasource response: "
                             +:+ json.Error err +:+ ".";
                Code := ERROR_CODE_INTERNAL |})
  | None =>
      match data with
      | None => Panicked "runtime error: invalid memory address or nil pointer dereference"
      | Some data =>
          let nextCursor :=
            if DatasourceResponse.More data
            then strconv.FormatInt
                   (Int64.add (DatasourceResponse.Offset data) (DatasourceResponse.Limit data))
            else "" in
          Returned (DatasourceResponse.Objects data, nextCursor, None)
      end
  end.

(** The text of the URL of the outbound request: [fmt.Sprintf] with [%d]
    writes an integer as [strconv.FormatInt] does in base 10, and with [%s]
    copies a string as it is, with no escaping. *)
Definition page_url (request : Request.t) (offset : Z) : string :=
  Request.BaseURL request +:+ "/" +:+ Request.EntityExternalID request
  +:+ "?offset=" +:+ strconv.FormatInt offset
  +:+ "&limit=" +:+ strconv.FormatInt (Request.PageSize request).

(** [http.NewRequestWithContext(ctx, http.MethodGet, url, nil)] with a
    context that is not nil: the request holds the URL that [url.Parse] makes
    of the text, when it accepts it. *)
Definition NewRequestWithContext (method url : string) : option http.Request :=
  if url_ok url
  then Some {| http.Method := method; http.URL := url.Parse url; http.ReqHeader := ∅ |}
  else None.

Definition add_headers (request : Request.t) (req : http.Request) : http.Request :=
  let h := http.ReqHeader req in
  let h := http.Header_Add "Accept" "application/vnd.pagerduty+json;version=2" h in
  let h := http.Header_Add "Authorization" (Request.HTTPAuthorization request) h in
  let h := http.Header_Add "Content-Type" "application/json" h in
  {| http.Method := http.Method req; http.URL := http.URL req; http.ReqHeader := h |}.

Definition GetPage (d : Datasource) (request : Request.t)
  : traced (outcome (option Response.t * option Error)) :=
  let '(offset, offsetErr) := parseCursor (Request.Cursor request) in
  match offsetErr with
  | Some e => mret (Returned (None, Some e))
  | None =>
      let url := page_url request offset in
      match NewRequestWithContext http.MethodGet url with
      | None =>
          mret (Returned (None,
            Some {| Message := "Failed to create HTTP request to datasource.";
                    Code := ERROR_CODE_INTERNAL |}))
      | Some req =>
          defer EvCancel (
            let req := add_headers request req in
            emit (EvDo req) ;;
            match http.Do (Client d) req with
            | None =>
                mret (Returned (None,
                  Some {| Message := "Failed to send request to datasource.";
                          Code := ERROR_CODE_INTERNAL |}))
            | Some res =>
                let response :=
                  {| Response.StatusCode := http.StatusCode res;
                     Response.RetryAfterHeader :=
                       http.Header_Get "Retry-After" (http.RespHeader res);
                     Response.Objects := None;
                     Response.NextCursor := "" |} in
                if negb (http.StatusCode res =? http.StatusOK)
                then mret (Returned (Some response, None))
                else
                  defer EvBodyClose (
                    emit EvReadAll ;;
                    match http.RespBody res with
                    | http.body_read_error =>
                        mret (Returned (None,
                          Some {| Message := "Failed to read response body.";
                                  Code := ERROR_CODE_DATASOURCE_FAILED |}))
                    | http.body_bytes body =>
                        match ParseResponse body with
                        | Panicked reason => mret (Panicked reason)
                        | Returned (_, _, Some parseErr) =>
                            mret (Returned (None, Some parseErr))
                        | Returned (objects, nextCursor, None) =>
                            mret (Returned
                              (Some {| Response.StatusCode := Response.StatusCode response;
                                       Response.RetryAfterHeader :=
                                         Response.RetryAfterHeader response;
                                       Response.Objects := objects;
                                       Response.NextCursor := nextCursor |},
                               None))
                        end
                    end)
            end)
      end
  end.

End Adapter.

(** The requests a trace sent to the datasource, in order. *)
Definition sent_requests (tr : list event) : list http.Request :=
  omap (fun ev => match ev with EvDo req => Some req | _ => None end) tr.

(** Whether a trace closed the body of the response. *)
Definition closes_body (tr : list event) : bool :=
  existsb (fun ev => match ev with EvBodyClose => true | _ => false end) tr.

(** The request [GetPage] hands to the client for a page at [offset]. *)
Definition outbound_request (request : Request.t) (offset : Z) : http.Request :=
  add_headers request
    {| http.Method := http.MethodGet;
       http.URL := url.Parse (page_url request offset);
       http.ReqHeader := ∅ |}.

(** The response [GetPage] prepares as soon as the datasource has answered. *)
Definition status_response (res : http.Response) : Response.t :=
  {| Response.StatusCode := http.StatusCode res;
     Response.RetryAfterHeader := http.Header_Get "Retry-After" (http.RespHeader res);
     Response.Objects := None;
     Response.NextCursor := "" |}.

(** What [GetPage] makes of the result of [ParseResponse]. *)
Definition page_result (res : http.Response)
  (parsed : outcome (slice object_map * string * option Error))
  : outcome (option Response.t * option Error) :=
  match parsed with
  | Panicked reason => Panicked reason
  | Returned (_, _, Some parseErr) => Returned (None, Some parseErr)
  | Returned (objects, nextCursor, None) =>
      Returned
        (Some {| Response.StatusCode := http.StatusCode res;
                 Response.RetryAfterHeader :=
                   http.Header_Get "Retry-After" (http.RespHeader res);
                 Response.Objects := objects;
                 Response.NextCursor := nextCursor |},
         None)
  end.

(** ** Scenarios *)

(** A JSON text, written with single quotes where it has double quotes. *)
Fixpoint json_text (s : string) : string :=
  match s with
  | EmptyString => EmptyString
  | String c s' => String (if Ascii.eqb c "'"%char then dquote else c) (json_text s')
  end.

Definition two_teams_body : string :=
  json_text "{'teams':[{'id':'1'},{'id':'2'}],'more':true,'limit':2,'offset':0}".

Definition last_page_body : string :=
  json_text "{'teams':[],'more':false,'limit':10,'offset':20}".

Definition null_body : string := "null".

Definition teams_request (cursor : string) : Request.t :=
  {| Request.BaseURL := "https://api.pagerduty.com";
     Request.EntityExternalID := "teams";
     Request.PageSize := 10;
     Request.Cursor := cursor;
     Request.HTTPAuthorization := "Token token=secret" |}.

(** The same request for an entity that holds a ['#']. *)
Definition fragment_request (cursor : string) : Request.t :=
  {| Request.BaseURL := "https://api.pagerduty.com";
     Request.EntityExternalID := "teams#f";
     Request.PageSize := 10;
     Request.Cursor := cursor;
     Request.HTTPAuthorization := "Token token=secret" |}.

(** What the two scenario bodies decode to. *)
Definition two_teams_data : DatasourceResponse.t :=
  {| DatasourceResponse.Objects :=
       Some [Some {[ "id" := any_string "1" ]}; Some {[ "id" := any_string "2" ]}];
     DatasourceResponse.More := true;
     DatasourceResponse.Limit := 2;
     DatasourceResponse.Offset := 0 |}.

Definition last_page_data : DatasourceResponse.t :=
  {| DatasourceResponse.Objects := Some [];
     DatasourceResponse.More := false;
     DatasourceResponse.Limit := 10;
     DatasourceResponse.Offset := 20 |}.

(** An envelope whose offset and limit are both [2^62]: each is an
    [int64], their sum [2^63] is not. *)
Definition overflow_body : string :=
  json_text
    "{'teams':[],'more':true,'limit':4611686018427387904,'offset':4611686018427387904}".

Definition overflow_data : DatasourceResponse.t :=
  {| DatasourceResponse.Objects := Some [];
     DatasourceResponse.More := true;
     DatasourceResponse.Limit := 2 ^ 62;
     DatasourceResponse.Offset := 2 ^ 62 |}.

(** A datasource that answers every request with [res]. *)
Definition answering (res : http.Response) : Datasource :=
  {| Client := {| http.Do := fun _ => Some res |} |}.

(** A datasource that must not be reached: it fails every request. *)
Definition unreachable : Datasource :=
  {| Client := {| http.Do := fun _ => None |} |}.

Definition too_many_requests : http.Response :=
  {| http.StatusCode := 429;
     http.RespHeader := {[ "Retry-After" := ["30"] ]};
     http.RespBody := http.body_bytes "" |}.

Definition ok_with (body : string) : http.Response :=
  {| http.StatusCode := 200;
     http.RespHeader := ∅;
     http.RespBody := http.body_bytes body |}.

(** A URL check that accepts every URL. *)
Definition any_url (url : string) : bool := true.

(** ** Further scenarios *)

(** An envelope with offset 1 and limit 1: another page that ends at 2. *)
Definition paired_body : string :=
  json_text "{'teams':[],'more':true,'limit':1,'offset':1}".

Definition paired_data : DatasourceResponse.t :=
  {| DatasourceResponse.Objects := Some [];
     DatasourceResponse.More := true;
     DatasourceResponse.Limit := 1;
     DatasourceResponse.Offset := 1 |}.

(** An envelope with no member [more], and one whose limit has a fraction. *)
Definition no_more_key_body : string :=
  json_text "{'teams':[{'id':'1'}],'limit':1,'offset':0}".

Definition fractional_limit_body : string :=
  json_text "{'teams':[],'more':true,'limit':1.5,'offset':0}".

(** Envelopes with more than one member [teams]: a second array, a [null],
    and a shorter array followed by a longer one. *)
Definition repeated_teams_body : string :=
  json_text "{'teams':[{'a':'1'}],'teams':[{'b':'2'}]}".

Definition teams_then_null_body : string :=
  json_text "{'teams':[{'a':'1'}],'teams':null}".

Definition shrunk_teams_body : string :=
  json_text "{'teams':[{'a':'1'},{'b':'2'}],'teams':[{'c':'3'}],'teams':[{'d':'4'},{'e':'5'}]}".

(** A response with status 200 whose body cannot be read. *)
Definition unreadable : http.Response :=
  {| http.StatusCode := 200;
     http.RespHeader := ∅;
     http.RespBody := http.body_read_error |}.

(** The message of the error [ParseResponse] returns for a decode error. *)
Definition unmarshal_message (err : json.error) : string :=
  "Failed to unmarshal the datasource response: " +:+ json.Error err +:+ ".".

(** ** [NewClient] *)

(** [time.Second], in nanoseconds. *)
Definition Second : Z := 1000000000.

(** The field [Timeout] of the HTTP client that [NewClient(timeout)] builds:
    [time.Duration(timeout) * time.Second], a product of [int64] values (an
    [int] is 64 bits wide on the platforms the adapter is built for). *)
Definition NewClient_Timeout (timeout : Z) : Z :=
  Int64.to_signed (Int64.to_signed timeout * Second).

(** ** The paths through [GetPage] *)

Section Paths.

Variable json_Unmarshal : string -> option DatasourceResponse.t * option json.error.
Variable url_ok : string -> bool.

(** Each exit of [GetPage], with the result it returns and the effects it
    adds to the trace. *)
Inductive GetPage_path (d : Datasource) (request : Request.t)
  : outcome (option Response.t * option Error) -> list event -> Prop :=
  | path_cursor offset e :
      parseCursor (Request.Cursor request) = (offset, Some e) ->
      GetPage_path d request (Returned (None, Some e)) []
  | path_url offset :
      parseCursor (Request.Cursor request) = (offset, None) ->
      url_ok (page_url request offset) = false ->
      GetPage_path d request
        (Returned (None,
           Some {| Message := "Failed to create HTTP request to datasource.";
                   Code := ERROR_CODE_INTERNAL |})) []
  | path_transport offset :
      parseCursor (Request.Cursor request) = (offset, None) ->
      url_ok (page_url request offset) = true ->
      http.Do (Client d) (outbound_request request offset) = None ->
      GetPage_path d request
        (Returned (None,
           Some {| Message := "Failed to send request to datasource.";
                   Code := ERROR_CODE_INTERNAL |}))
        [EvDo (outbound_request request offset); EvCancel]
  | path_status offset res :
      parseCursor (Request.Cursor request) = (offset, None) ->
      url_ok (page_url request offset) = true ->
      http.Do (Client d) (outbound_request request offset) = Some res ->
      http.StatusCode res <> http.StatusOK ->
      GetPage_path d request (Returned (Some (status_response res), None))
        [EvDo (outbound_request request offset); EvCancel]
  | path_read offset res :
      parseCursor (Request.Cursor request) = (offset, None) ->
      url_ok (page_url request offset) = true ->
      http.Do (Client d) (outbound_request request offset) = Some res ->
      http.StatusCode res = http.StatusOK ->
      http.RespBody res = http.body_read_error ->
      GetPage_path d request
        (Returned (None,
           Some {| Message := "Failed to read response body.";
                   Code := ERROR_CODE_DATASOURCE_FAILED |}))
        [EvDo (outbound_request request offset); EvReadAll; EvBodyClose; EvCancel]
  | path_body offset res body :
      parseCursor (Request.Cursor request) = (offset, None) ->
      url_ok (page_url request offset) = true ->
      http.Do (Client d) (outbound_request request offset) = Some res ->
      http.StatusCode res = http.StatusOK ->
      http.RespBody res = http.body_bytes body ->
      GetPage_path d request (page_result res (ParseResponse json_Unmarshal body))
        [EvDo (outbound_request request offset); EvReadAll; EvBodyClose; EvCancel].

End Paths.

(** * Properties *)

(** ** Arithmetic of the machine integers *)

Lemma to_signed_in_range x : Int64.in_range x -> Int64.to_signed x = x.
Proof.
  unfold Int64.in_range, Int64.min_signed, Int64.max_signed, Int64.to_signed.
  intros H. rewrite Z.mod_small; lia.
Qed.

Lemma to_signed_range x : Int64.in_range (Int64.to_signed x).
Proof.
  unfold Int64.in_range, Int64.min_signed, Int64.max_signed, Int64.to_signed.
  pose proof (Z.mod_pos_bound (x + 2 ^ 63) (2 ^ 64) ltac:(lia)). lia.
Qed.

Lemma add_in_range a b : Int64.in_range (Int64.add a b).
Proof. apply to_signed_range. Qed.

Lemma add_no_overflow a b :
  Int64.in_range (a + b) -> Int64.add a b = a + b.
Proof. apply to_signed_in_range. Qed.

Lemma to_unsigned_nonneg x :
  0 <= x <= Int64.max_unsigned -> Int64.to_unsigned x = x.
Proof.
  unfold Int64.max_unsigned, Int64.to_unsigned. intros H.
  apply Z.mod_small. lia.
Qed.

(** The sum of two non-negative [int64] values that does not fit wraps to
    the sum less [2^64]. *)
Lemma add_overflow a b :
  0 <= a <= Int64.max_signed -> 0 <= b <= Int64.max_signed ->
  Int64.max_signed < a + b -> Int64.add a b = a + b - 2 ^ 64.
Proof.
  unfold Int64.max_signed, Int64.add, Int64.to_signed. intros Ha Hb Hsum.
  replace (a + b + 2 ^ 63) with (a + b + 2 ^ 63 - 2 ^ 64 + 1 * 2 ^ 64) by lia.
  rewrite Z.mod_add by lia. rewrite Z.mod_small; lia.
Qed.

(** The magnitude of a negative [int64], as [formatBits] computes it. *)
Lemma uneg_to_unsigned_neg x :
  Int64.min_signed <= x < 0 -> Int64.uneg (Int64.to_unsigned x) = - x.
Proof.
  unfold Int64.min_signed, Int64.uneg, Int64.to_unsigned. intros H.
  replace (x mod 2 ^ 64) with (x + 2 ^ 64).
  - replace (- (x + 2 ^ 64)) with (- x + (-1) * 2 ^ 64) by lia.
    rewrite Z.mod_add by lia. apply Z.mod_small. lia.
  - symmetry. replace (x + 2 ^ 64) with (x + 1 * 2 ^ 64) by lia.
    rewrite <- (Z.mod_add x 1 (2 ^ 64)) by lia. apply Z.mod_small. lia.
Qed.

(** Negating the magnitude read back by [ParseInt] gives the number, also at
    the least [int64], where both conversions wrap. *)
Lemma neg_to_signed_magnitude y :
  0 < y <= 2 ^ 63 -> Int64.neg (Int64.to_signed y) = - y.
Proof.
  intros H. destruct (Z.eq_dec y (2 ^ 63)) as [-> | Hne].
  - reflexivity.
  - unfold Int64.neg. rewrite (to_signed_in_range y).
    + apply to_signed_in_range. unfold Int64.in_range, Int64.min_signed, Int64.max_signed. lia.
    + unfold Int64.in_range, Int64.min_signed, Int64.max_signed. lia.
Qed.

(** ** [strconv]: reading back what [FormatInt] writes *)

Lemma byte_val_byte_of z : 0 <= z < 256 -> byte_val (byte_of z) = z.
Proof.
  intros H. unfold byte_val, byte_of.
  rewrite N_ascii_embedding; lia.
Qed.

Lemma digit_val_digit d :
  0 <= d < 10 -> strconv.digit_val (byte_val (byte_of (48 + d))) = Some d.
Proof.
  intros H. rewrite byte_val_byte_of by lia. unfold strconv.digit_val.
  replace ((48 <=? 48 + d) && (48 + d <=? 57)) with true.
  - f_equal. lia.
  - symmetry. apply andb_true_iff. split; apply Z.leb_le; lia.
Qed.

(** One round of the loop of [ParseUint] on a digit that does not overflow. *)
Lemma ParseUint_loop_digit d s n :
  0 <= d < 10 -> 0 <= n -> n * 10 + d <= Int64.max_unsigned ->
  strconv.ParseUint_loop (String (byte_of (48 + d)) s) n
  = strconv.ParseUint_loop s (n * 10 + d).
Proof.
  intros Hd Hn Hmax. cbn [strconv.ParseUint_loop].
  rewrite digit_val_digit by assumption.
  assert (Hc : n < strconv.cutoff10).
  { unfold strconv.cutoff10. unfold Int64.max_unsigned in *.
    change ((2 ^ 64 - 1) / 10 + 1) with 1844674407370955162. lia. }
  replace (10 <=? d) with false by (symmetry; apply Z.leb_gt; lia).
  replace (strconv.cutoff10 <=? n) with false by (symmetry; apply Z.leb_gt; lia).
  unfold Int64.umul, Int64.uadd.
  rewrite (to_unsigned_nonneg (n * 10)) by lia.
  rewrite (to_unsigned_nonneg (n * 10 + d)) by lia.
  replace (n * 10 + d <? n * 10) with false by (symmetry; apply Z.ltb_ge; lia).
  replace (strconv.maxVal <? n * 10 + d) with false
    by (symmetry; apply Z.ltb_ge; unfold strconv.maxVal; lia).
  reflexivity.
Qed.

(** Reading the digits that [formatBits] wrote for [u] takes the loop of
    [ParseUint] from 0 to [u]. *)
Lemma ParseUint_loop_formatBits fuel : forall u acc,
  0 <= u < 10 ^ Z.of_nat fuel -> u <= Int64.max_unsigned ->
  strconv.ParseUint_loop (strconv.formatBits_loop fuel u acc) 0
  = strconv.ParseUint_loop acc u.
Proof.
  induction fuel as [| fuel IH]; intros u acc Hu Hmax.
  - cbn in Hu. assert (u = 0) as -> by lia. reflexivity.
  - cbn [strconv.formatBits_loop].
    destruct (10 <=? u) eqn:Hten.
    + apply Z.leb_le in Hten.
      assert (Hq : 0 <= u / 10 < 10 ^ Z.of_nat fuel).
      { split; [apply Z.div_pos; lia |].
        apply Z.div_lt_upper_bound; [lia |].
        rewrite Nat2Z.inj_succ, Z.pow_succ_r in Hu by lia. lia. }
      assert (Hdm := Z.div_mod u 10 ltac:(lia)).
      assert (Hm := Z.mod_pos_bound u 10 ltac:(lia)).
      rewrite IH by lia.
      rewrite ParseUint_loop_digit by lia.
      f_equal. lia.
    + apply Z.leb_gt in Hten.
      rewrite ParseUint_loop_digit by (unfold Int64.max_unsigned in *; lia).
      f_equal.
Qed.

(** The bytes [formatBits] writes start with a decimal digit. *)
Lemma formatBits_loop_head fuel : forall u acc,
  0 <= u ->
  exists d rest, 0 <= d < 10 /\
    strconv.formatBits_loop (S fuel) u acc = String (byte_of (48 + d)) rest.
Proof.
  induction fuel as [| fuel IH]; intros u acc Hu.
  - cbn [strconv.formatBits_loop]. destruct (10 <=? u) eqn:Hten.
    + exists (u - u / 10 * 10), acc. split; [| reflexivity].
      pose proof (Z.div_mod u 10 ltac:(lia)). pose proof (Z.mod_pos_bound u 10 ltac:(lia)). lia.
    + apply Z.leb_gt in Hten. exists u, acc. split; [lia | reflexivity].
  - remember (S fuel) as f eqn:Hf. cbn [strconv.formatBits_loop].
    destruct (10 <=? u) eqn:Hten.
    + subst f. apply IH. apply Z.div_pos; lia.
    + apply Z.leb_gt in Hten. exists u, acc. split; [lia | reflexivity].
Qed.

Lemma ParseUint_formatBits u :
  0 <= u <= Int64.max_unsigned ->
  strconv.ParseUint (strconv.formatBits_loop 65 u EmptyString) = (u, None).
Proof.
  intros Hu.
  destruct (formatBits_loop_head 64 u EmptyString ltac:(lia)) as (d & rest & Hd & Heq).
  unfold strconv.ParseUint.
  rewrite Heq, <- Heq.
  rewrite ParseUint_loop_formatBits; [reflexivity | | lia].
  unfold Int64.max_unsigned in Hu. split; [lia |].
  apply Z.le_lt_trans with (2 ^ 64 - 1); [lia |]. reflexivity.
Qed.

(** [ParseInt] reads back every [int64] that [FormatInt] wrote. *)
Lemma ParseInt_FormatInt x :
  Int64.in_range x -> strconv.ParseInt (strconv.FormatInt x) = (x, None).
Proof.
  unfold Int64.in_range, Int64.min_signed, Int64.max_signed. intros Hx.
  unfold strconv.FormatInt, strconv.formatBits.
  destruct (x <? 0) eqn:Hneg.
  - apply Z.ltb_lt in Hneg.
    rewrite uneg_to_unsigned_neg by (unfold Int64.min_signed; lia).
    unfold strconv.ParseInt.
    change (byte_val (byte_of 45) =? 43) with false.
    change (byte_val (byte_of 45) =? 45) with true. cbv iota.
    rewrite ParseUint_formatBits by (unfold Int64.max_unsigned; lia).
    cbv zeta. cbn [negb andb].
    replace (2 ^ 63 <? - x) with false by (symmetry; apply Z.ltb_ge; lia).
    rewrite neg_to_signed_magnitude by lia. f_equal. lia.
  - apply Z.ltb_ge in Hneg.
    rewrite (to_unsigned_nonneg x) by (unfold Int64.max_unsigned; lia).
    destruct (formatBits_loop_head 64 x EmptyString Hneg) as (d & rest & Hd & Heq).
    pose proof (ParseUint_formatBits x ltac:(unfold Int64.max_unsigned; lia)) as HP.
    rewrite Heq in *. unfold strconv.ParseInt.
    rewrite byte_val_byte_of by lia.
    replace (48 + d =? 43) with false by (symmetry; apply Z.eqb_neq; lia).
    replace (48 + d =? 45) with false by (symmetry; apply Z.eqb_neq; lia).
    cbv iota. rewrite HP. cbv zeta. cbn [negb andb].
    replace (2 ^ 63 <=? x) with false by (symmetry; apply Z.leb_gt; lia).
    rewrite to_signed_in_range; [reflexivity |].
    unfold Int64.in_range, Int64.min_signed, Int64.max_signed. lia.
Qed.

(** ** [strconv]: [FormatInt] writes the decimal notation *)

Ltac digit_cases d H :=
  assert (d = 0 \/ d = 1 \/ d = 2 \/ d = 3 \/ d = 4 \/ d = 5 \/ d = 6 \/ d = 7 \/ d = 8 \/ d = 9)
    as [-> | [-> | [-> | [-> | [-> | [-> | [-> | [-> | [-> | ->]]]]]]]]] by (clear - H; lia).

Lemma of_lu_digit_cons d rest :
  0 <= d < 10 ->
  DecimalPos.Unsigned.of_lu (digit_cons d rest) = (Z.to_N d + 10 * DecimalPos.Unsigned.of_lu rest)%N.
Proof. intros H. digit_cases d H; reflexivity. Qed.

Lemma string_of_digit_cons d rest :
  0 <= d < 10 ->
  NilEmpty.string_of_uint (digit_cons d rest) = String (byte_of (48 + d)) (NilEmpty.string_of_uint rest).
Proof. intros H. digit_cases d H; reflexivity. Qed.

Lemma revapp_digit_cons d rest acc :
  Decimal.revapp (digit_cons d rest) acc = Decimal.revapp rest (digit_cons d acc).
Proof.
  destruct d as [| p | p]; [reflexivity | | reflexivity].
  do 4 (try destruct p as [p | p |]); reflexivity.
Qed.

Lemma nzhead_digit_cons d acc :
  0 < d < 10 -> Decimal.nzhead (digit_cons d acc) = digit_cons d acc /\ digit_cons d acc <> Nil.
Proof. intros H. digit_cases d H; try lia; split; try reflexivity; discriminate. Qed.

Lemma of_lu_little_digits fuel : forall u,
  0 <= u < 10 ^ Z.of_nat fuel ->
  DecimalPos.Unsigned.of_lu (little_digits fuel u) = Z.to_N u.
Proof.
  induction fuel as [| fuel IH]; intros u Hu.
  - cbn in Hu. assert (u = 0) as -> by lia. reflexivity.
  - cbn [little_digits]. destruct (10 <=? u) eqn:Hten.
    + apply Z.leb_le in Hten.
      assert (Hdm := Z.div_mod u 10 ltac:(lia)).
      assert (Hm := Z.mod_pos_bound u 10 ltac:(lia)).
      assert (Hq : 0 <= u / 10 < 10 ^ Z.of_nat fuel).
      { split; [apply Z.div_pos; lia |].
        apply Z.div_lt_upper_bound; [lia |].
        rewrite Nat2Z.inj_succ, Z.pow_succ_r in Hu by lia. lia. }
      rewrite of_lu_digit_cons by lia. rewrite IH by lia. lia.
    + apply Z.leb_gt in Hten. rewrite of_lu_digit_cons by lia. cbn. lia.
Qed.

Lemma formatBits_loop_little fuel : forall u acc,
  0 <= u ->
  strconv.formatBits_loop fuel u (NilEmpty.string_of_uint acc)
  = NilEmpty.string_of_uint (Decimal.revapp (little_digits fuel u) acc).
Proof.
  induction fuel as [| fuel IH]; intros u acc Hu; [reflexivity |].
  cbn [strconv.formatBits_loop little_digits]. destruct (10 <=? u) eqn:Hten.
  - apply Z.leb_le in Hten.
    assert (Hdm := Z.div_mod u 10 ltac:(lia)).
    assert (Hm := Z.mod_pos_bound u 10 ltac:(lia)).
    rewrite revapp_digit_cons, <- IH by (apply Z.div_pos; lia).
    rewrite string_of_digit_cons by lia. reflexivity.
  - apply Z.leb_gt in Hten. rewrite revapp_digit_cons. cbn [Decimal.revapp].
    rewrite string_of_digit_cons by lia. reflexivity.
Qed.

Lemma little_digits_normal fuel : forall u acc,
  0 < u < 10 ^ Z.of_nat fuel ->
  Decimal.nzhead (Decimal.revapp (little_digits fuel u) acc)
  = Decimal.revapp (little_digits fuel u) acc
  /\ Decimal.revapp (little_digits fuel u) acc <> Nil.
Proof.
  induction fuel as [| fuel IH]; intros u acc Hu.
  - cbn in Hu. lia.
  - cbn [little_digits]. destruct (10 <=? u) eqn:Hten.
    + apply Z.leb_le in Hten. rewrite revapp_digit_cons. apply IH.
      split; [apply Z.div_str_pos; lia |].
      apply Z.div_lt_upper_bound; [lia |].
      rewrite Nat2Z.inj_succ, Z.pow_succ_r in Hu by lia. lia.
    + apply Z.leb_gt in Hten. rewrite revapp_digit_cons. cbn [Decimal.revapp].
      apply nzhead_digit_cons. lia.
Qed.

Lemma formatBits_loop_decimal u :
  0 <= u <= Int64.max_unsigned ->
  strconv.formatBits_loop 65 u EmptyString = NilZero.string_of_uint (N.to_uint (Z.to_N u)).
Proof.
  intros Hu.
  assert (Hpow : u < 10 ^ Z.of_nat 65).
  { apply Z.le_lt_trans with (2 ^ 64 - 1); [unfold Int64.max_unsigned in Hu; lia | reflexivity]. }
  destruct (Z.eq_dec u 0) as [-> | Hnz]; [reflexivity |].
  rewrite <- (of_lu_little_digits 65 u) by lia.
  rewrite <- DecimalPos.Unsigned.of_lu_rev, DecimalPos.Unsigned.to_of.
  destruct (little_digits_normal 65 u Nil ltac:(lia)) as [Hn Hnil].
  unfold Decimal.unorm, Decimal.rev. rewrite Hn.
  change EmptyString with (NilEmpty.string_of_uint Nil).
  rewrite formatBits_loop_little by lia.
  destruct (Decimal.revapp (little_digits 65 u) Nil); try reflexivity. congruence.
Qed.

Lemma FormatInt_decimal x :
  Int64.in_range x -> strconv.FormatInt x = NilZero.string_of_int (Z.to_int x).
Proof.
  unfold Int64.in_range, Int64.min_signed, Int64.max_signed. intros Hx.
  unfold strconv.FormatInt, strconv.formatBits.
  destruct (x <? 0) eqn:Hneg.
  - apply Z.ltb_lt in Hneg.
    rewrite uneg_to_unsigned_neg by (unfold Int64.min_signed; lia).
    rewrite formatBits_loop_decimal by (unfold Int64.max_unsigned; lia).
    destruct x; try lia. reflexivity.
  - apply Z.ltb_ge in Hneg.
    rewrite (to_unsigned_nonneg x) by (unfold Int64.max_unsigned; lia).
    rewrite formatBits_loop_decimal by (unfold Int64.max_unsigned; lia).
    destruct x; try lia; reflexivity.
Qed.

(** ** [strconv]: [ParseInt] accepts the base-10 signed 64-bit integers *)

Lemma decimal_value_ge s : forall acc v,
  0 <= acc -> decimal_value s acc = Some v -> acc <= v.
Proof.
  induction s as [| c s IH]; intros acc v Hacc H; cbn in H.
  - injection H as <-. lia.
  - destruct (is_decimal_digit c) eqn:Hc; [| discriminate].
    unfold is_decimal_digit in Hc. apply andb_true_iff in Hc as [H1 H2].
    apply Z.leb_le in H1, H2. apply IH in H; lia.
Qed.

Lemma digit_val_decimal c :
  is_decimal_digit c = true -> strconv.digit_val (byte_val c) = Some (byte_val c - 48).
Proof. unfold is_decimal_digit, strconv.digit_val. intros ->. reflexivity. Qed.

Lemma digit_val_other c :
  is_decimal_digit c = false ->
  match strconv.digit_val (byte_val c) with
  | Some d => 10 <= d
  | None => True
  end.
Proof.
  unfold is_decimal_digit, strconv.digit_val. intros ->.
  destruct ((97 <=? strconv.lower (byte_val c)) && (strconv.lower (byte_val c) <=? 122)) eqn:H;
    [| exact I].
  apply andb_true_iff in H as [H _]. apply Z.leb_le in H. lia.
Qed.

Lemma ParseUint_loop_spec s : forall n,
  0 <= n <= Int64.max_unsigned ->
  loop_result s n (strconv.ParseUint_loop s n).
Proof.
  induction s as [| c s IH]; intros n Hn.
  - cbn. apply loop_value; [reflexivity | lia].
  - cbn [strconv.ParseUint_loop].
    destruct (is_decimal_digit c) eqn:Hc.
    + rewrite (digit_val_decimal c Hc).
      pose proof Hc as Hc'. unfold is_decimal_digit in Hc'.
      apply andb_true_iff in Hc' as [H1 H2]. apply Z.leb_le in H1, H2.
      set (d := byte_val c - 48) in *.
      replace (10 <=? d) with false by (symmetry; apply Z.leb_gt; lia).
      assert (Hstep : forall v, decimal_value (String c s) n = Some v ->
                                n * 10 + d <= v).
      { intros v Hv. cbn in Hv. rewrite Hc in Hv.
        apply decimal_value_ge in Hv; lia. }
      unfold strconv.cutoff10, Int64.max_unsigned in *.
      change ((2 ^ 64 - 1) / 10 + 1) with 1844674407370955162.
      destruct (1844674407370955162 <=? n) eqn:Hcut.
      * apply Z.leb_le in Hcut. apply loop_range.
        intros v Hv. apply Hstep in Hv. unfold Int64.max_unsigned. lia.
      * apply Z.leb_gt in Hcut.
        unfold Int64.umul, Int64.uadd.
        rewrite (to_unsigned_nonneg (n * 10)) by (unfold Int64.max_unsigned; lia).
        destruct (Z_le_gt_dec (n * 10 + d) (2 ^ 64 - 1)) as [Hfit | Hover].
        -- rewrite (to_unsigned_nonneg (n * 10 + d)) by (unfold Int64.max_unsigned; lia).
           replace (n * 10 + d <? n * 10) with false by (symmetry; apply Z.ltb_ge; lia).
           replace (strconv.maxVal <? n * 10 + d) with false
             by (symmetry; apply Z.ltb_ge; unfold strconv.maxVal, Int64.max_unsigned; lia).
           cbn [orb].
           specialize (IH (n * 10 + d) ltac:(unfold Int64.max_unsigned; lia)).
           inversion IH as [v Hv Hle Heq | Hr Heq | Hs Heq].
           ++ apply loop_value; [cbn; rewrite Hc; exact Hv | exact Hle].
           ++ apply loop_range. intros v Hv. cbn in Hv. rewrite Hc in Hv. auto.
           ++ apply loop_syntax. cbn. rewrite Hc. exact Hs.
        -- replace (Int64.to_unsigned (n * 10 + d)) with (n * 10 + d - 2 ^ 64).
           ++ replace (n * 10 + d - 2 ^ 64 <? n * 10) with true
                by (symmetry; apply Z.ltb_lt; lia).
              cbn [orb]. apply loop_range.
              intros v Hv. apply Hstep in Hv. unfold Int64.max_unsigned. lia.
           ++ unfold Int64.to_unsigned. symmetry.
              replace (n * 10 + d) with (n * 10 + d - 2 ^ 64 + 1 * 2 ^ 64) at 1 by lia.
              rewrite Z.mod_add by lia. apply Z.mod_small. lia.
    + assert (Hnone : decimal_value (String c s) n = None) by (cbn; rewrite Hc; reflexivity).
      pose proof (digit_val_other c Hc) as Hd.
      destruct (strconv.digit_val (byte_val c)) as [d |].
      * replace (10 <=? d) with true by (symmetry; apply Z.leb_le; lia).
        apply loop_syntax. exact Hnone.
      * apply loop_syntax. exact Hnone.
Qed.

Lemma ParseInt_unsigned_spec neg s1 :
  match int64_of_digits neg s1 with
  | Some n => ParseInt_unsigned neg s1 = (n, None)
  | None => exists z e, ParseInt_unsigned neg s1 = (z, Some e)
  end.
Proof.
  destruct s1 as [| c s]; [cbn; eauto |].
  unfold int64_of_digits, ParseInt_unsigned, strconv.ParseUint.
  pose proof (ParseUint_loop_spec (String c s) 0 ltac:(unfold Int64.max_unsigned; lia)) as H.
  destruct H as [v Hv Hle | Hr | Hs].
  - rewrite Hv. cbv zeta.
    assert (H0 : 0 <= v) by (apply decimal_value_ge in Hv; lia).
    unfold Int64.min_signed, Int64.max_signed, Int64.max_unsigned in *.
    destruct neg; cbn [negb andb].
    + destruct (2 ^ 63 <? v) eqn:Hc.
      * apply Z.ltb_lt in Hc.
        replace ((- 2 ^ 63 <=? - v) && (- v <=? 2 ^ 63 - 1)) with false; [eauto |].
        symmetry. apply andb_false_iff. left. apply Z.leb_gt. lia.
      * apply Z.ltb_ge in Hc.
        replace ((- 2 ^ 63 <=? - v) && (- v <=? 2 ^ 63 - 1)) with true.
        -- f_equal. destruct (Z.eq_dec v 0) as [-> | Hnz]; [reflexivity |].
           apply neg_to_signed_magnitude. lia.
        -- symmetry. apply andb_true_iff. split; apply Z.leb_le; lia.
    + destruct (2 ^ 63 <=? v) eqn:Hc.
      * apply Z.leb_le in Hc.
        replace ((- 2 ^ 63 <=? v) && (v <=? 2 ^ 63 - 1)) with false; [eauto |].
        symmetry. apply andb_false_iff. right. apply Z.leb_gt. lia.
      * apply Z.leb_gt in Hc.
        replace ((- 2 ^ 63 <=? v) && (v <=? 2 ^ 63 - 1)) with true.
        -- f_equal. apply to_signed_in_range.
           unfold Int64.in_range, Int64.min_signed, Int64.max_signed. lia.
        -- symmetry. apply andb_true_iff. split; apply Z.leb_le; lia.
  - destruct (decimal_value (String c s) 0) as [v |] eqn:Hv.
    + specialize (Hr v eq_refl). cbv zeta.
      unfold Int64.min_signed, Int64.max_signed, Int64.max_unsigned in *.
      destruct neg.
      * replace ((- 2 ^ 63 <=? - v) && (- v <=? 2 ^ 63 - 1)) with false.
        -- do 2 eexists. reflexivity.
        -- symmetry. apply andb_false_iff. left. apply Z.leb_gt. lia.
      * replace ((- 2 ^ 63 <=? v) && (v <=? 2 ^ 63 - 1)) with false.
        -- do 2 eexists. reflexivity.
        -- symmetry. apply andb_false_iff. right. apply Z.leb_gt. lia.
    + destruct neg; do 2 eexists; reflexivity.
  - rewrite Hs. eauto.
Qed.

Lemma ParseInt_spec s :
  match int64_of_decimal s with
  | Some n => strconv.ParseInt s = (n, None)
  | None => exists z e, strconv.ParseInt s = (z, Some e)
  end.
Proof.
  destruct s as [| c rest]; [cbn; eauto |].
  unfold int64_of_decimal, strconv.ParseInt.
  destruct (byte_val c =? 43); [apply (ParseInt_unsigned_spec false rest) |].
  destruct (byte_val c =? 45); [apply (ParseInt_unsigned_spec true rest) |].
  apply (ParseInt_unsigned_spec false (String c rest)).
Qed.

(** ** The cursor codec and the response parser *)

Import framework.

Lemma parseCursor_empty : parseCursor "" = (0, None).
Proof. reflexivity. Qed.

Lemma parseCursor_ParseInt cursor :
  cursor <> "" ->
  parseCursor cursor =
    match strconv.ParseInt cursor with
    | (_, Some _) =>
        (0, Some {| Message := "Request cursor conversion to int64 failed.";
                    Code := ERROR_CODE_INVALID_PAGE_REQUEST_CONFIG |})
    | (parsedOffset, None) => (parsedOffset, None)
    end.
Proof.
  intros Hne. unfold parseCursor.
  destruct (String.eqb cursor "") eqn:E.
  - apply String.eqb_eq in E. contradiction.
  - destruct (strconv.ParseInt cursor) as [n [e |]]; reflexivity.
Qed.

(** A cursor that is a base-10 signed 64-bit integer decodes to it. *)
Lemma parseCursor_decimal cursor n :
  int64_of_decimal cursor = Some n -> parseCursor cursor = (n, None).
Proof.
  intros H. assert (Hne : cursor <> "") by (intros ->; discriminate).
  rewrite parseCursor_ParseInt by assumption.
  pose proof (ParseInt_spec cursor) as Hs. rewrite H in Hs. rewrite Hs. reflexivity.
Qed.

(** A cursor that is not empty and is no base-10 signed 64-bit integer is
    refused. *)
Lemma parseCursor_not_decimal cursor :
  cursor <> "" -> int64_of_decimal cursor = None ->
  parseCursor cursor =
    (0, Some {| Message := "Request cursor conversion to int64 failed.";
                Code := ERROR_CODE_INVALID_PAGE_REQUEST_CONFIG |}).
Proof.
  intros Hne H. rewrite parseCursor_ParseInt by assumption.
  pose proof (ParseInt_spec cursor) as Hs. rewrite H in Hs.
  destruct Hs as (z & e & ->). reflexivity.
Qed.

(** Whatever the cursor, an error of [parseCursor] has the code
    [ERROR_CODE_INVALID_PAGE_REQUEST_CONFIG]. *)
Lemma parseCursor_error_code cursor offset e :
  parseCursor cursor = (offset, Some e) ->
  Code e = ERROR_CODE_INVALID_PAGE_REQUEST_CONFIG.
Proof.
  unfold parseCursor. destruct (String.eqb cursor ""); [discriminate |].
  destruct (strconv.ParseInt cursor) as [n [err |]]; [| discriminate].
  intros [= _ <-]. reflexivity.
Qed.

Section ParseResponseFacts.

Variable json_Unmarshal : string -> option DatasourceResponse.t * option json.error.

Lemma ParseResponse_unmarshal_error body data err :
  json_Unmarshal body = (data, Some err) ->
  ParseResponse json_Unmarshal body =
    Returned (None, "",
      Some {| Message := "Failed to unmarshal the datasource response: "
                           +:+ json.Error err +:+ ".";
              Code := ERROR_CODE_INTERNAL |}).
Proof. intros H. unfold ParseResponse. rewrite H. reflexivity. Qed.

Lemma ParseResponse_decoded body data :
  json_Unmarshal body = (Some data, None) ->
  ParseResponse json_Unmarshal body =
    Returned (DatasourceResponse.Objects data,
              (if DatasourceResponse.More data
               then strconv.FormatInt
                      (Int64.add (DatasourceResponse.Offset data)
                                 (DatasourceResponse.Limit data))
               else ""),
              None).
Proof. intros H. unfold ParseResponse. rewrite H. reflexivity. Qed.

Lemma ParseResponse_nil_pointer body :
  json_Unmarshal body = (None, None) ->
  ParseResponse json_Unmarshal body =
    Panicked "runtime error: invalid memory address or nil pointer dereference".
Proof. intros H. unfold ParseResponse. rewrite H. reflexivity. Qed.

End ParseResponseFacts.

(** ** The page fetcher, path by path *)

Lemma sent_requests_app tr1 tr2 :
  sent_requests (tr1 ++ tr2) = sent_requests tr1 ++ sent_requests tr2.
Proof. unfold sent_requests. apply omap_app. Qed.

Lemma closes_body_app tr1 tr2 :
  closes_body (tr1 ++ tr2) = closes_body tr1 || closes_body tr2.
Proof. unfold closes_body. apply existsb_app. Qed.

Lemma Header_Get_first key v vs (h : http.Header) :
  h !! key = Some (v :: vs) -> http.Header_Get key h = v.
Proof. intros H. unfold http.Header_Get. rewrite H. reflexivity. Qed.

Lemma Header_Get_absent key (h : http.Header) :
  h !! key = None -> http.Header_Get key h = "".
Proof. intros H. unfold http.Header_Get. rewrite H. reflexivity. Qed.

Section GetPageFacts.

Variable json_Unmarshal : string -> option DatasourceResponse.t * option json.error.
Variable url_ok : string -> bool.

Ltac run_GetPage Hc Hu :=
  unfold GetPage; rewrite Hc; unfold NewRequestWithContext; rewrite Hu;
  unfold defer, emit, mbind, traced_bind, mret, traced_ret;
  fold (outbound_request).

Lemma GetPage_cursor_error d request offset e tr :
  parseCursor (Request.Cursor request) = (offset, Some e) ->
  GetPage json_Unmarshal url_ok d request tr = (Returned (None, Some e), tr).
Proof. intros Hc. unfold GetPage. rewrite Hc. reflexivity. Qed.

Lemma GetPage_url_refused d request offset tr :
  parseCursor (Request.Cursor request) = (offset, None) ->
  url_ok (page_url request offset) = false ->
  GetPage json_Unmarshal url_ok d request tr =
    (Returned (None,
       Some {| Message := "Failed to create HTTP request to datasource.";
               Code := ERROR_CODE_INTERNAL |}), tr).
Proof.
  intros Hc Hu. unfold GetPage. rewrite Hc.
  unfold NewRequestWithContext. rewrite Hu. reflexivity.
Qed.

Lemma GetPage_transport_error d request offset tr :
  parseCursor (Request.Cursor request) = (offset, None) ->
  url_ok (page_url request offset) = true ->
  http.Do (Client d) (outbound_request request offset) = None ->
  GetPage json_Unmarshal url_ok d request tr =
    (Returned (None,
       Some {| Message := "Failed to send request to datasource.";
               Code := ERROR_CODE_INTERNAL |}),
     tr ++ [EvDo (outbound_request request offset); EvCancel]).
Proof.
  intros Hc Hu Hdo. run_GetPage Hc Hu.
  change (add_headers request _) with (outbound_request request offset).
  rewrite Hdo. rewrite <- app_assoc. reflexivity.
Qed.

Lemma GetPage_status_not_ok d request offset res tr :
  parseCursor (Request.Cursor request) = (offset, None) ->
  url_ok (page_url request offset) = true ->
  http.Do (Client d) (outbound_request request offset) = Some res ->
  http.StatusCode res <> http.StatusOK ->
  GetPage json_Unmarshal url_ok d request tr =
    (Returned (Some (status_response res), None),
     tr ++ [EvDo (outbound_request request offset); EvCancel]).
Proof.
  intros Hc Hu Hdo Hst. run_GetPage Hc Hu.
  change (add_headers request _) with (outbound_request request offset).
  rewrite Hdo.
  replace (http.StatusCode res =? http.StatusOK) with false
    by (symmetry; apply Z.eqb_neq; exact Hst).
  cbn [negb]. rewrite <- app_assoc. reflexivity.
Qed.

Lemma GetPage_read_error d request offset res tr :
  parseCursor (Request.Cursor request) = (offset, None) ->
  url_ok (page_url request offset) = true ->
  http.Do (Client d) (outbound_request request offset) = Some res ->
  http.StatusCode res = http.StatusOK ->
  http.RespBody res = http.body_read_error ->
  GetPage json_Unmarshal url_ok d request tr =
    (Returned (None,
       Some {| Message := "Failed to read response body.";
               Code := ERROR_CODE_DATASOURCE_FAILED |}),
     tr ++ [EvDo (outbound_request request offset); EvReadAll; EvBodyClose; EvCancel]).
Proof.
  intros Hc Hu Hdo Hst Hbody. run_GetPage Hc Hu.
  change (add_headers request _) with (outbound_request request offset).
  rewrite Hdo, Hbody.
  replace (http.StatusCode res =? http.StatusOK) with true
    by (symmetry; apply Z.eqb_eq; exact Hst).
  cbn [negb]. rewrite <- !app_assoc. reflexivity.
Qed.

Lemma GetPage_body d request offset res body tr :
  parseCursor (Request.Cursor request) = (offset, None) ->
  url_ok (page_url request offset) = true ->
  http.Do (Client d) (outbound_request request offset) = Some res ->
  http.StatusCode res = http.StatusOK ->
  http.RespBody res = http.body_bytes body ->
  GetPage json_Unmarshal url_ok d request tr =
    (page_result res (ParseResponse json_Unmarshal body),
     tr ++ [EvDo (outbound_request request offset); EvReadAll; EvBodyClose; EvCancel]).
Proof.
  intros Hc Hu Hdo Hst Hbody. run_GetPage Hc Hu.
  change (add_headers request _) with (outbound_request request offset).
  rewrite Hdo, Hbody.
  replace (http.StatusCode res =? http.StatusOK) with true
    by (symmetry; apply Z.eqb_eq; exact Hst).
  cbn [negb]. unfold page_result.
  destruct (ParseResponse json_Unmarshal body) as [[[objects nextCursor] [parseErr |]] | reason];
    rewrite <- !app_assoc; reflexivity.
Qed.

(** Once the cursor is decoded and the request is built, [GetPage] calls the
    client exactly once, with the request for the decoded offset. *)
Lemma GetPage_sends d request offset tr :
  parseCursor (Request.Cursor request) = (offset, None) ->
  url_ok (page_url request offset) = true ->
  sent_requests (snd (GetPage json_Unmarshal url_ok d request tr))
  = sent_requests tr ++ [outbound_request request offset].
Proof.
  intros Hc Hu.
  destruct (http.Do (Client d) (outbound_request request offset)) as [res |] eqn:Hdo.
  - destruct (Z.eq_dec (http.StatusCode res) http.StatusOK) as [Hst | Hst].
    + destruct (http.RespBody res) as [body |] eqn:Hbody.
      * rewrite (GetPage_body _ _ _ _ _ _ Hc Hu Hdo Hst Hbody).
        cbn [snd]. rewrite sent_requests_app. reflexivity.
      * rewrite (GetPage_read_error _ _ _ _ _ Hc Hu Hdo Hst Hbody).
        cbn [snd]. rewrite sent_requests_app. reflexivity.
    + rewrite (GetPage_status_not_ok _ _ _ _ _ Hc Hu Hdo Hst).
      cbn [snd]. rewrite sent_requests_app. reflexivity.
  - rewrite (GetPage_transport_error _ _ _ _ Hc Hu Hdo).
    cbn [snd]. rewrite sent_requests_app. reflexivity.
Qed.

End GetPageFacts.

(** ** What the scenario bodies decode to *)

Lemma Unmarshal_two_teams : json.Unmarshal two_teams_body = (Some two_teams_data, None).
Proof. vm_compute. reflexivity. Qed.

Lemma Unmarshal_last_page : json.Unmarshal last_page_body = (Some last_page_data, None).
Proof. vm_compute. reflexivity. Qed.

Lemma Unmarshal_null : json.Unmarshal null_body = (None, None).
Proof. vm_compute. reflexivity. Qed.

(** A body that is no JSON text is refused with the text of the decoder in
    the message. *)
Lemma ParseResponse_not_json :
  ParseResponse json.Unmarshal "abc" =
    Returned (None, "",
      Some {| Message := "Failed to unmarshal the datasource response: "
                +:+ "invalid character 'a' looking for beginning of value.";
              Code := ERROR_CODE_INTERNAL |}).
Proof. vm_compute. reflexivity. Qed.

(** The second scenario: two records and the cursor [2]. *)
Lemma ParseResponse_two_teams :
  ParseResponse json.Unmarshal two_teams_body =
    Returned (Some [Some {[ "id" := any_string "1" ]}; Some {[ "id" := any_string "2" ]}],
              "2", None).
Proof. vm_compute. reflexivity. Qed.

(** ** [net/url]: where the page URL is split *)

Lemma append_empty_r s : s +:+ "" = s.
Proof.
  induction s as [| c s IH]; [reflexivity |].
  change (String c (s +:+ "") = String c s). f_equal. exact IH.
Qed.

Lemma contains_app c s1 s2 :
  url.contains c (s1 +:+ s2) = url.contains c s1 || url.contains c s2.
Proof.
  induction s1 as [| a s1 IH]; [reflexivity |].
  change (Ascii.eqb a c || url.contains c (s1 +:+ s2)
          = Ascii.eqb a c || url.contains c s1 || url.contains c s2).
  rewrite IH. apply orb_assoc.
Qed.

(** With no separator in the text, [Cut] gives the text back. *)
Lemma Cut_absent sep s :
  url.contains sep s = false -> url.Cut sep s = (s, "", false).
Proof.
  induction s as [| a s IH]; [reflexivity |].
  cbn [url.contains url.Cut]. destruct (Ascii.eqb a sep); [discriminate |].
  cbn [orb]. intros H. rewrite (IH H). reflexivity.
Qed.

(** With no separator in the first part of the text, [Cut] cuts the second
    part. *)
Lemma Cut_app sep s1 s2 :
  url.contains sep s1 = false ->
  url.Cut sep (s1 +:+ s2)
  = (s1 +:+ (url.Cut sep s2).1.1, (url.Cut sep s2).1.2, (url.Cut sep s2).2).
Proof.
  induction s1 as [| a s1 IH].
  - intros _. change ("" +:+ s2) with s2.
    destruct (url.Cut sep s2) as [[b a] f]. reflexivity.
  - change (String a s1 +:+ s2) with (String a (s1 +:+ s2)).
    cbn [url.contains url.Cut]. destruct (Ascii.eqb a sep); [discriminate |].
    cbn [orb]. intros H. rewrite (IH H). reflexivity.
Qed.

Lemma HasSuffix_Count sep u :
  url.HasSuffix sep u = true -> (1 <= url.Count sep u)%nat.
Proof.
  induction u as [| a u IH]; [discriminate |].
  cbn [url.HasSuffix url.Count]. destruct u as [| b u].
  - intros ->. cbn. lia.
  - intros H. specialize (IH H). lia.
Qed.

(** A text that ends in its only separator is cut just before it, and
    nothing follows: the case [Parse] treats apart gives the same split. *)
Lemma Cut_HasSuffix sep u :
  url.HasSuffix sep u = true -> url.Count sep u = 1%nat ->
  url.Cut sep u = (url.but_last u, "", true).
Proof.
  induction u as [| a u IH]; [discriminate |].
  cbn [url.HasSuffix url.Count url.but_last url.Cut]. destruct u as [| b u].
  - intros -> _. reflexivity.
  - intros Hs Hc. pose proof (HasSuffix_Count _ _ Hs) as Hone.
    destruct (Ascii.eqb a sep); [lia |].
    rewrite (IH Hs) by lia. reflexivity.
Qed.

(** What [Parse] makes of a text: the fragment is what follows the first
    ['#'], the query is what follows the first ['?'] before it. *)
Lemma Parse_splits rawURL :
  url.Frag (url.Parse rawURL) = (url.Cut "#" rawURL).1.2
  /\ url.RawQuery (url.Parse rawURL) = (url.Cut "?" (url.Cut "#" rawURL).1.1).1.2
  /\ url.BeforeQuery (url.Parse rawURL) = (url.Cut "?" (url.Cut "#" rawURL).1.1).1.1.
Proof.
  unfold url.Parse. destruct (url.Cut "#" rawURL) as [[u frag] found]. cbn [fst snd].
  destruct (url.HasSuffix "?" u && (url.Count "?" u =? 1)%nat) eqn:Hforce.
  - apply andb_true_iff in Hforce. destruct Hforce as [Hs Hc].
    apply Nat.eqb_eq in Hc. rewrite (Cut_HasSuffix _ _ Hs Hc). repeat split.
  - destruct (url.Cut "?" u) as [[rest query] f]. repeat split.
Qed.

(** A text with neither mark in front of a ['?'] and no ['#'] after it is
    split at that ['?']. *)
Lemma Parse_query prefix query :
  url.unsplit prefix = true ->
  url.contains "#" query = false ->
  url.BeforeQuery (url.Parse (prefix +:+ String "?" query)) = prefix
  /\ url.RawQuery (url.Parse (prefix +:+ String "?" query)) = query
  /\ url.Frag (url.Parse (prefix +:+ String "?" query)) = "".
Proof.
  unfold url.unsplit. intros Hp Hq.
  apply andb_true_iff in Hp. destruct Hp as [Hh Hm].
  apply negb_true_iff in Hh, Hm.
  destruct (Parse_splits (prefix +:+ String "?" query)) as (Hf & Hr & Hb).
  assert (Hcut : url.Cut "#" (prefix +:+ String "?" query)
                 = (prefix +:+ String "?" query, "", false)).
  { apply Cut_absent. rewrite contains_app, Hh. cbn. exact Hq. }
  rewrite Hcut in Hf, Hr, Hb. cbn [fst snd] in Hf, Hr, Hb.
  rewrite (Cut_app _ _ _ Hm) in Hr, Hb. cbn in Hr, Hb.
  rewrite append_empty_r in Hb. auto.
Qed.

Lemma unsplit_app s1 s2 :
  url.unsplit (s1 +:+ s2) = url.unsplit s1 && url.unsplit s2.
Proof.
  unfold url.unsplit. rewrite !contains_app.
  destruct (url.contains "#" s1), (url.contains "?" s1),
           (url.contains "#" s2), (url.contains "?" s2); reflexivity.
Qed.

(** [FormatInt] writes digits and at most a minus sign. *)
Lemma formatBits_loop_contains c fuel : forall u acc,
  byte_val c < 48 \/ 57 < byte_val c ->
  0 <= u ->
  url.contains c acc = false ->
  url.contains c (strconv.formatBits_loop fuel u acc) = false.
Proof.
  intros u acc Hc. revert u acc.
  assert (Hdigit : forall d, 0 <= d < 10 -> Ascii.eqb (byte_of (48 + d)) c = false).
  { intros d Hd. apply Ascii.eqb_neq. intros E.
    pose proof (byte_val_byte_of (48 + d) ltac:(lia)) as Hv. rewrite E in Hv. lia. }
  induction fuel as [| fuel IH]; intros u acc Hu Hacc; [exact Hacc |].
  cbn [strconv.formatBits_loop]. destruct (10 <=? u) eqn:Hten.
  - apply Z.leb_le in Hten. apply IH.
    + apply Z.div_pos; lia.
    + cbn [url.contains]. rewrite Hdigit, Hacc; [reflexivity |].
      pose proof (Z.div_mod u 10 ltac:(lia)). pose proof (Z.mod_pos_bound u 10 ltac:(lia)). lia.
  - apply Z.leb_gt in Hten. cbn [url.contains]. rewrite Hdigit, Hacc; [reflexivity | lia].
Qed.

Lemma FormatInt_contains c x :
  byte_val c < 45 \/ 57 < byte_val c ->
  url.contains c (strconv.FormatInt x) = false.
Proof.
  intros Hc. unfold strconv.FormatInt, strconv.formatBits.
  assert (Hpos : forall z, 0 <= Int64.to_unsigned z)
    by (intros z; unfold Int64.to_unsigned; apply Z.mod_pos_bound; lia).
  destruct (x <? 0).
  - cbn [url.contains].
    replace (Ascii.eqb (byte_of 45) c) with false.
    + apply formatBits_loop_contains; [lia | apply Hpos | reflexivity].
    + symmetry. apply Ascii.eqb_neq. intros E. subst c.
      change (byte_val (byte_of 45)) with 45 in Hc. lia.
  - apply formatBits_loop_contains; [lia | apply Hpos | reflexivity].
Qed.

Lemma append_assoc s1 s2 s3 : (s1 +:+ s2) +:+ s3 = s1 +:+ (s2 +:+ s3).
Proof.
  induction s1 as [| c s1 IH]; [reflexivity |].
  change (String c ((s1 +:+ s2) +:+ s3) = String c (s1 +:+ (s2 +:+ s3))).
  f_equal. exact IH.
Qed.

(** The text of the page URL: what the request gives for the base and the
    entity, a ['?'], and a query with the offset and the limit. *)
Lemma page_url_split request offset :
  page_url request offset
  = (Request.BaseURL request +:+ "/" +:+ Request.EntityExternalID request)
    +:+ String "?" ("offset=" +:+ strconv.FormatInt offset
                    +:+ "&limit=" +:+ strconv.FormatInt (Request.PageSize request)).
Proof. unfold page_url. rewrite !append_assoc. reflexivity. Qed.

(** When neither the base nor the entity holds a ['#'] or a ['?'], the
    request goes out with the offset and the limit as its query, and with no
    fragment. *)
Lemma outbound_request_query request offset :
  url.unsplit (Request.BaseURL request) = true ->
  url.unsplit (Request.EntityExternalID request) = true ->
  url.RawQuery (http.URL (outbound_request request offset))
  = "offset=" +:+ strconv.FormatInt offset
    +:+ "&limit=" +:+ strconv.FormatInt (Request.PageSize request)
  /\ url.BeforeQuery (http.URL (outbound_request request offset))
     = Request.BaseURL request +:+ "/" +:+ Request.EntityExternalID request
  /\ url.Frag (http.URL (outbound_request request offset)) = "".
Proof.
  intros Hbase Hentity.
  cbn [outbound_request add_headers http.URL]. rewrite page_url_split.
  destruct (Parse_query
              (Request.BaseURL request +:+ "/" +:+ Request.EntityExternalID request)
              ("offset=" +:+ strconv.FormatInt offset
               +:+ "&limit=" +:+ strconv.FormatInt (Request.PageSize request)))
    as (Hb & Hq & Hf).
  - rewrite !unsplit_app, Hbase, Hentity. reflexivity.
  - rewrite !contains_app, !FormatInt_contains by (vm_compute; left; reflexivity).
    reflexivity.
  - auto.
Qed.

(** ** The claims *)

Lemma parseCursor_FormatInt x :
  Int64.in_range x -> parseCursor (strconv.FormatInt x) = (x, None).
Proof.
  intros Hx. pose proof (ParseInt_FormatInt x Hx) as HP.
  rewrite parseCursor_ParseInt.
  - rewrite HP. reflexivity.
  - intros Hempty. rewrite Hempty in HP. discriminate HP.
Qed.

Section Claims.

Variable json_Unmarshal : string -> option DatasourceResponse.t * option json.error.
Variable url_ok : string -> bool.

(** C1, as stated, fails where the sum overflows: for the envelope with
    offset and limit both [2^62] and more data, each a non-negative [int64],
    the cursor is the text of the least [int64] and decodes to it, not to
    offset + limit, which is [2^63]. *)
Lemma cursor_round_trip_overflows :
  json.Unmarshal overflow_body = (Some overflow_data, None)
  /\ DatasourceResponse.More overflow_data = true
  /\ 0 <= DatasourceResponse.Offset overflow_data <= Int64.max_signed
  /\ 0 <= DatasourceResponse.Limit overflow_data <= Int64.max_signed
  /\ ParseResponse json.Unmarshal overflow_body
     = Returned (Some [], "-9223372036854775808", None)
  /\ parseCursor "-9223372036854775808" = (- 2 ^ 63, None)
  /\ ~ (exists objects nextCursor,
          ParseResponse json.Unmarshal overflow_body
          = Returned (objects, nextCursor, None)
          /\ parseCursor nextCursor
             = (DatasourceResponse.Offset overflow_data
                + DatasourceResponse.Limit overflow_data, None)).
Proof.
  split; [vm_compute; reflexivity |].
  split; [reflexivity |].
  split; [split; vm_compute; discriminate |].
  split; [split; vm_compute; discriminate |].
  split; [vm_compute; reflexivity |].
  split; [vm_compute; reflexivity |].
  intros (objects & nextCursor & Hrun & Hdecode).
  vm_compute in Hrun. injection Hrun as _ <-.
  vm_compute in Hdecode. discriminate Hdecode.
Qed.

(** C1, amended. Cursor round trip: when the envelope says that more data
    remains and its offset and limit are non-negative [int64] values,
    decoding the cursor that [ParseResponse] computes gives, with no error,
    offset + limit whenever that sum is itself an [int64]; when it is not,
    the cursor holds the sum as Go adds two [int64] values, and decoding
    gives offset + limit less [2^64]. *)
Theorem cursor_round_trip body data :
  json_Unmarshal body = (Some data, None) ->
  DatasourceResponse.More data = true ->
  0 <= DatasourceResponse.Offset data <= Int64.max_signed ->
  0 <= DatasourceResponse.Limit data <= Int64.max_signed ->
  exists objects nextCursor,
    ParseResponse json_Unmarshal body = Returned (objects, nextCursor, None)
    /\ (DatasourceResponse.Offset data + DatasourceResponse.Limit data <= Int64.max_signed ->
        parseCursor nextCursor
        = (DatasourceResponse.Offset data + DatasourceResponse.Limit data, None))
    /\ (Int64.max_signed < DatasourceResponse.Offset data + DatasourceResponse.Limit data ->
        parseCursor nextCursor
        = (DatasourceResponse.Offset data + DatasourceResponse.Limit data - 2 ^ 64, None))
    /\ parseCursor nextCursor
       = (Int64.add (DatasourceResponse.Offset data) (DatasourceResponse.Limit data), None).
Proof.
  intros Hdec Hmore Hoff Hlim.
  exists (DatasourceResponse.Objects data),
         (strconv.FormatInt
            (Int64.add (DatasourceResponse.Offset data) (DatasourceResponse.Limit data))).
  assert (Hround :
    parseCursor
      (strconv.FormatInt
         (Int64.add (DatasourceResponse.Offset data) (DatasourceResponse.Limit data)))
    = (Int64.add (DatasourceResponse.Offset data) (DatasourceResponse.Limit data), None))
    by apply parseCursor_FormatInt, add_in_range.
  split; [| split; [| split]].
  - rewrite (ParseResponse_decoded _ _ _ Hdec), Hmore. reflexivity.
  - intros Hsum. rewrite Hround. rewrite add_no_overflow; [reflexivity |].
    unfold Int64.in_range, Int64.min_signed, Int64.max_signed in *. lia.
  - intros Hsum. rewrite Hround. rewrite add_overflow by assumption. reflexivity.
  - exact Hround.
Qed.

(** C3. When the datasource answers with a status other than 200, [GetPage]
    returns a response with that status, no records (a nil slice), no next
    cursor and the value of the header Retry-After (its first value when the
    header is present, the empty string when it is absent), and no error. *)
Theorem GetPage_error_status d request offset res tr :
  parseCursor (Request.Cursor request) = (offset, None) ->
  url_ok (page_url request offset) = true ->
  http.Do (Client d) (outbound_request request offset) = Some res ->
  http.StatusCode res <> http.StatusOK ->
  fst (GetPage json_Unmarshal url_ok d request tr) =
    Returned
      (Some {| Response.StatusCode := http.StatusCode res;
               Response.RetryAfterHeader :=
                 http.Header_Get "Retry-After" (http.RespHeader res);
               Response.Objects := None;
               Response.NextCursor := "" |},
       None)
  /\ (forall v vs, http.RespHeader res !! "Retry-After" = Some (v :: vs) ->
        http.Header_Get "Retry-After" (http.RespHeader res) = v)
  /\ (http.RespHeader res !! "Retry-After" = None ->
        http.Header_Get "Retry-After" (http.RespHeader res) = "").
Proof.
  intros Hc Hu Hdo Hst. split; [| split].
  - rewrite (GetPage_status_not_ok _ _ _ _ _ _ _ Hc Hu Hdo Hst). reflexivity.
  - intros v vs. apply Header_Get_first.
  - apply Header_Get_absent.
Qed.

(** C4. When the cursor of the request fails to decode, [GetPage] returns
    the error of [parseCursor], whose code is
    [ERROR_CODE_INVALID_PAGE_REQUEST_CONFIG], and no response; it adds nothing
    to the trace of effects, so the client is not called. *)
Theorem GetPage_invalid_cursor d request offset e tr :
  parseCursor (Request.Cursor request) = (offset, Some e) ->
  GetPage json_Unmarshal url_ok d request tr = (Returned (None, Some e), tr)
  /\ Code e = ERROR_CODE_INVALID_PAGE_REQUEST_CONFIG
  /\ sent_requests (snd (GetPage json_Unmarshal url_ok d request tr)) = sent_requests tr.
Proof.
  intros Hc. rewrite (GetPage_cursor_error _ _ _ _ _ _ _ Hc).
  split; [reflexivity | split; [| reflexivity]].
  exact (parseCursor_error_code _ _ _ Hc).
Qed.

(** C5, as stated, fails where the sum overflows: for the envelope with
    offset and limit both [2^62] and more data, the next cursor is the text
    of the least [int64], while the base-10 string of offset + limit is the
    text of [2^63]. *)
Lemma nextCursor_overflows :
  json.Unmarshal overflow_body = (Some overflow_data, None)
  /\ Int64.in_range (DatasourceResponse.Offset overflow_data)
  /\ Int64.in_range (DatasourceResponse.Limit overflow_data)
  /\ ParseResponse json.Unmarshal overflow_body
     = Returned (Some [], "-9223372036854775808", None)
  /\ NilZero.string_of_int
       (Z.to_int (DatasourceResponse.Offset overflow_data
                  + DatasourceResponse.Limit overflow_data))
     = "9223372036854775808"
  /\ ~ (exists objects,
          ParseResponse json.Unmarshal overflow_body
          = Returned
              (objects,
               NilZero.string_of_int
                 (Z.to_int (DatasourceResponse.Offset overflow_data
                            + DatasourceResponse.Limit overflow_data)),
               None)).
Proof.
  split; [vm_compute; reflexivity |].
  split; [split; vm_compute; discriminate |].
  split; [split; vm_compute; discriminate |].
  split; [vm_compute; reflexivity |].
  split; [vm_compute; reflexivity |].
  intros (objects & Hrun). vm_compute in Hrun. discriminate Hrun.
Qed.

(** C5, amended. The next cursor that [ParseResponse] returns is the empty
    string when the envelope says that no more data remains, and otherwise
    what [strconv.FormatInt] writes for offset + limit as Go adds two [int64]
    values: the base-10 string of that wrapped sum, which is the base-10
    string of offset + limit whenever offset + limit is itself an [int64]. *)
Theorem ParseResponse_nextCursor body data :
  json_Unmarshal body = (Some data, None) ->
  ParseResponse json_Unmarshal body =
    Returned (DatasourceResponse.Objects data,
              (if DatasourceResponse.More data
               then strconv.FormatInt
                      (Int64.add (DatasourceResponse.Offset data)
                                 (DatasourceResponse.Limit data))
               else ""),
              None)
  /\ strconv.FormatInt
       (Int64.add (DatasourceResponse.Offset data) (DatasourceResponse.Limit data))
     = NilZero.string_of_int
         (Z.to_int (Int64.add (DatasourceResponse.Offset data)
                              (DatasourceResponse.Limit data)))
  /\ (Int64.in_range (DatasourceResponse.Offset data + DatasourceResponse.Limit data) ->
      strconv.FormatInt
        (Int64.add (DatasourceResponse.Offset data) (DatasourceResponse.Limit data))
      = NilZero.string_of_int
          (Z.to_int (DatasourceResponse.Offset data + DatasourceResponse.Limit data))).
Proof.
  intros Hdec. split; [| split].
  - exact (ParseResponse_decoded _ _ _ Hdec).
  - apply FormatInt_decimal, add_in_range.
  - intros Hsum. rewrite (add_no_overflow _ _ Hsum). apply FormatInt_decimal, Hsum.
Qed.

(** C7, amended. The empty cursor decodes to offset 0 with no error, and
    for a request with the empty cursor and page size 10 the text of the URL
    is the base, a slash, the entity and [?offset=0&limit=10].  When neither
    the base nor the entity holds a ['#'] or a ['?'], the request goes out
    with the query [offset=0&limit=10], after the base and the entity and
    with no fragment; and once the request is built, it is the one request
    [GetPage] sends. *)
Theorem first_page_query d request tr :
  Request.Cursor request = "" ->
  Request.PageSize request = 10 ->
  parseCursor (Request.Cursor request) = (0, None)
  /\ page_url request 0
     = Request.BaseURL request +:+ "/" +:+ Request.EntityExternalID request
       +:+ "?offset=0&limit=10"
  /\ (url.unsplit (Request.BaseURL request) = true ->
      url.unsplit (Request.EntityExternalID request) = true ->
      url.RawQuery (http.URL (outbound_request request 0)) = "offset=0&limit=10"
      /\ url.BeforeQuery (http.URL (outbound_request request 0))
         = Request.BaseURL request +:+ "/" +:+ Request.EntityExternalID request
      /\ url.Frag (http.URL (outbound_request request 0)) = "")
  /\ (url_ok (page_url request 0) = true ->
      sent_requests (snd (GetPage json_Unmarshal url_ok d request tr))
      = sent_requests tr ++ [outbound_request request 0]).
Proof.
  intros Hcur Hsize.
  assert (Hc : parseCursor (Request.Cursor request) = (0, None))
    by (rewrite Hcur; reflexivity).
  split; [exact Hc | split; [| split]].
  - unfold page_url. rewrite Hsize. reflexivity.
  - intros Hbase Hentity.
    destruct (outbound_request_query request 0 Hbase Hentity) as (Hq & Hb & Hf).
    rewrite Hsize in Hq. auto.
  - intros Hu. exact (GetPage_sends _ _ _ _ _ _ Hc Hu).
Qed.


End Claims.

(** C2, as stated, fails: the cursor [abc] is not empty and is no base-10
    signed 64-bit integer, and the error [parseCursor] returns for it does not
    have the code the specification calls InvalidCursor. *)
Lemma parseCursor_abc_not_InvalidCursor :
  "abc" <> ""
  /\ int64_of_decimal "abc" = None
  /\ ~ (exists offset e,
          parseCursor "abc" = (offset, Some e) /\ Code e = ERROR_CODE_INVALID_CURSOR).
Proof.
  split; [discriminate | split; [reflexivity |]].
  intros (offset & e & Hp & Hcode).
  vm_compute in Hp. injection Hp as _ <-. discriminate Hcode.
Qed.

(** C2, amended. For every cursor that is not empty and is no base-10 signed
    64-bit integer, [parseCursor] returns offset 0 and an error whose code is
    [ERROR_CODE_INVALID_PAGE_REQUEST_CONFIG]. *)
Theorem parseCursor_rejects_non_integer cursor :
  cursor <> "" ->
  int64_of_decimal cursor = None ->
  exists e,
    parseCursor cursor = (0, Some e)
    /\ Code e = ERROR_CODE_INVALID_PAGE_REQUEST_CONFIG
    /\ Message e = "Request cursor conversion to int64 failed.".
Proof.
  intros Hne Hdec. eexists. split; [| split].
  - exact (parseCursor_not_decimal cursor Hne Hdec).
  - reflexivity.
  - reflexivity.
Qed.

(** C6, at the body [null]: it is a well-formed JSON text that is not an
    envelope, the decoder reports no error for it and leaves the pointer nil,
    and [ParseResponse] returns nothing at all, neither an error of the class
    Internal nor records. *)
Theorem ParseResponse_null_is_no_error :
  json.checkValid null_body = json.Read json.Null ""
  /\ json.Unmarshal null_body = (None, None)
  /\ forall objects nextCursor err,
       ParseResponse json.Unmarshal null_body <> Returned (objects, nextCursor, err).
Proof.
  split; [vm_compute; reflexivity | split; [vm_compute; reflexivity |]].
  intros objects nextCursor err H. vm_compute in H. discriminate H.
Qed.

(** C9, at the body [null]: [ParseResponse] dereferences the nil pointer the
    decoder left and panics, and so does [GetPage] when a datasource sends
    that body with status 200. *)
Theorem ParseResponse_null_panics :
  ParseResponse json.Unmarshal null_body
  = Panicked "runtime error: invalid memory address or nil pointer dereference"
  /\ fst (GetPage json.Unmarshal any_url (answering (ok_with null_body))
            (teams_request "") [])
     = Panicked "runtime error: invalid memory address or nil pointer dereference".
Proof. split; vm_compute; reflexivity. Qed.

(** Where the body is closed: on every path that reads it. *)
Lemma GetPage_ok_closes_body json_Unmarshal url_ok d request offset res tr :
  parseCursor (Request.Cursor request) = (offset, None) ->
  url_ok (page_url request offset) = true ->
  http.Do (Client d) (outbound_request request offset) = Some res ->
  http.StatusCode res = http.StatusOK ->
  closes_body (snd (GetPage json_Unmarshal url_ok d request tr)) = true.
Proof.
  intros Hc Hu Hdo Hst.
  destruct (http.RespBody res) as [body |] eqn:Hbody.
  - rewrite (GetPage_body _ _ _ _ _ _ _ _ Hc Hu Hdo Hst Hbody).
    cbn [snd]. rewrite closes_body_app. apply orb_true_r.
  - rewrite (GetPage_read_error _ _ _ _ _ _ _ Hc Hu Hdo Hst Hbody).
    cbn [snd]. rewrite closes_body_app. apply orb_true_r.
Qed.

(** Where it is not: on the return for a status other than 200, which comes
    before the deferred call of Close is set up. *)
Lemma GetPage_status_not_ok_leaves_body json_Unmarshal url_ok d request offset res tr :
  parseCursor (Request.Cursor request) = (offset, None) ->
  url_ok (page_url request offset) = true ->
  http.Do (Client d) (outbound_request request offset) = Some res ->
  http.StatusCode res <> http.StatusOK ->
  closes_body (snd (GetPage json_Unmarshal url_ok d request tr)) = closes_body tr.
Proof.
  intros Hc Hu Hdo Hst.
  rewrite (GetPage_status_not_ok _ _ _ _ _ _ _ Hc Hu Hdo Hst).
  cbn [snd]. rewrite closes_body_app. apply orb_false_r.
Qed.

(** C8, at a datasource that answers 429: [GetPage] sends the request,
    returns, and runs the deferred cancel; the body of the response it
    obtained is never closed. *)
Theorem GetPage_429_leaves_body_open :
  snd (GetPage json.Unmarshal any_url (answering too_many_requests) (teams_request "") [])
  = [EvDo (outbound_request (teams_request "") 0); EvCancel]
  /\ closes_body
       (snd (GetPage json.Unmarshal any_url (answering too_many_requests)
               (teams_request "") []))
     = false.
Proof. split; vm_compute; reflexivity. Qed.

(** ** The claims at the scenarios of the specification *)

(** C1, amended, at the second scenario: offset 0 and limit 2 give the
    cursor [2], which decodes to 2. *)
Lemma cursor_round_trip_two_teams :
  exists objects nextCursor,
    ParseResponse json.Unmarshal two_teams_body = Returned (objects, nextCursor, None)
    /\ parseCursor nextCursor = (2, None).
Proof.
  destruct (cursor_round_trip json.Unmarshal two_teams_body two_teams_data)
    as (objects & nextCursor & Hrun & Hfit & _ & _).
  - vm_compute. reflexivity.
  - reflexivity.
  - vm_compute. split; discriminate.
  - vm_compute. split; discriminate.
  - exists objects, nextCursor. split; [exact Hrun |].
    apply Hfit. vm_compute. discriminate.
Defined.

(** C2, amended, at the cursor [abc]. *)
Lemma parseCursor_rejects_abc :
  exists e,
    parseCursor "abc" = (0, Some e)
    /\ Code e = ERROR_CODE_INVALID_PAGE_REQUEST_CONFIG
    /\ Message e = "Request cursor conversion to int64 failed.".
Proof.
  apply (parseCursor_rejects_non_integer "abc").
  - discriminate.
  - reflexivity.
Defined.

(** C3 at the fourth scenario: status 429 with Retry-After: 30. *)
Lemma GetPage_too_many_requests :
  fst (GetPage json.Unmarshal any_url (answering too_many_requests) (teams_request "") []) =
    Returned
      (Some {| Response.StatusCode := 429;
               Response.RetryAfterHeader := "30";
               Response.Objects := None;
               Response.NextCursor := "" |},
       None).
Proof.
  refine (proj1 (GetPage_error_status json.Unmarshal any_url
                   (answering too_many_requests) (teams_request "") 0
                   too_many_requests [] _ _ _ _)).
  - reflexivity.
  - reflexivity.
  - reflexivity.
  - vm_compute. discriminate.
Defined.

(** C4 at the fifth scenario: the cursor [notanumber], and a datasource
    that is never called. *)
Lemma GetPage_notanumber :
  GetPage json.Unmarshal any_url unreachable (teams_request "notanumber") []
  = (Returned
       (None,
        Some {| Message := "Request cursor conversion to int64 failed.";
                Code := ERROR_CODE_INVALID_PAGE_REQUEST_CONFIG |}), [])
  /\ sent_requests
       (snd (GetPage json.Unmarshal any_url unreachable (teams_request "notanumber") []))
     = [].
Proof.
  pose proof (GetPage_invalid_cursor json.Unmarshal any_url unreachable
                (teams_request "notanumber") 0
                {| Message := "Request cursor conversion to int64 failed.";
                   Code := ERROR_CODE_INVALID_PAGE_REQUEST_CONFIG |} []) as H.
  destruct H as (Hrun & _ & Hsent).
  - vm_compute. reflexivity.
  - split; [exact Hrun | exact Hsent].
Defined.

(** C5, amended, at the third scenario: no records and the empty cursor. *)
Lemma ParseResponse_last_page :
  ParseResponse json.Unmarshal last_page_body = Returned (Some [], "", None).
Proof.
  refine (proj1 (ParseResponse_nextCursor json.Unmarshal last_page_body last_page_data _)).
  vm_compute. reflexivity.
Defined.

(** C7, amended, at the first scenario: the empty cursor and page size
    10. *)
Lemma first_page_query_teams :
  parseCursor "" = (0, None)
  /\ url.RawQuery (http.URL (outbound_request (teams_request "") 0)) = "offset=0&limit=10"
  /\ url.BeforeQuery (http.URL (outbound_request (teams_request "") 0))
     = "https://api.pagerduty.com/teams"
  /\ sent_requests
       (snd (GetPage json.Unmarshal any_url (answering (ok_with two_teams_body))
               (teams_request "") []))
     = [outbound_request (teams_request "") 0].
Proof.
  destruct (first_page_query json.Unmarshal any_url (answering (ok_with two_teams_body))
              (teams_request "") []) as (Hc & _ & Hurl & Hsent).
  - reflexivity.
  - reflexivity.
  - destruct Hurl as (Hq & Hb & _); [reflexivity | reflexivity |].
    split; [exact Hc | split; [exact Hq | split; [exact Hb |]]].
    apply Hsent. reflexivity.
Defined.

(** C7, as stated, fails for an entity that holds a ['#']: with the empty
    cursor and page size 10 the one request that goes out has no query at
    all, the offset and the limit being part of its fragment, which is not
    sent. *)
Lemma first_page_query_lost_in_fragment :
  Request.Cursor (fragment_request "") = ""
  /\ Request.PageSize (fragment_request "") = 10
  /\ parseCursor (Request.Cursor (fragment_request "")) = (0, None)
  /\ page_url (fragment_request "") 0
     = "https://api.pagerduty.com/teams#f?offset=0&limit=10"
  /\ sent_requests
       (snd (GetPage json.Unmarshal any_url (answering (ok_with two_teams_body))
               (fragment_request "") []))
     = [outbound_request (fragment_request "") 0]
  /\ url.RawQuery (http.URL (outbound_request (fragment_request "") 0)) = ""
  /\ url.Frag (http.URL (outbound_request (fragment_request "") 0))
     = "f?offset=0&limit=10"
  /\ url.RawQuery (http.URL (outbound_request (fragment_request "") 0))
     <> "offset=0&limit=10".
Proof.
  split; [reflexivity |]. split; [reflexivity |]. split; [reflexivity |].
  split; [vm_compute; reflexivity |]. split; [vm_compute; reflexivity |].
  split; [vm_compute; reflexivity |]. split; [vm_compute; reflexivity |].
  vm_compute. discriminate.
Qed.



(** * Further properties *)

(** ** The cursor codec *)

Lemma int64_of_digits_range neg digits n :
  int64_of_digits neg digits = Some n -> Int64.in_range n.
Proof.
  unfold int64_of_digits. destruct digits as [| c s]; [discriminate |].
  destruct (decimal_value (String c s) 0) as [v |]; [| discriminate]. cbv zeta.
  destruct ((Int64.min_signed <=? (if neg then - v else v))
            && ((if neg then - v else v) <=? Int64.max_signed)) eqn:E; [| discriminate].
  intros [= <-]. apply andb_true_iff in E as [H1 H2].
  apply Z.leb_le in H1, H2. split; assumption.
Qed.

Lemma int64_of_decimal_range s n :
  int64_of_decimal s = Some n -> Int64.in_range n.
Proof.
  unfold int64_of_decimal. destruct s as [| c rest]; [discriminate |].
  destruct (byte_val c =? 43); [apply int64_of_digits_range |].
  destruct (byte_val c =? 45); apply int64_of_digits_range.
Qed.

Lemma in_range_0 : Int64.in_range 0.
Proof. split; discriminate. Qed.

(** X1. [parseCursor] returns no error exactly for the empty cursor and for
    the cursors that are base-10 signed 64-bit integers, whose value it then
    returns; the offset it returns is always an [int64], and it is 0 whenever
    there is an error. *)
Theorem parseCursor_accepts_iff cursor :
  (snd (parseCursor cursor) = None <-> cursor = "" \/ is_Some (int64_of_decimal cursor))
  /\ (forall n, int64_of_decimal cursor = Some n -> parseCursor cursor = (n, None))
  /\ Int64.in_range (fst (parseCursor cursor))
  /\ (snd (parseCursor cursor) <> None -> fst (parseCursor cursor) = 0).
Proof.
  destruct (String.eqb_spec cursor "") as [-> | Hne].
  - split; [| split; [| split]].
    + split; [left; reflexivity | reflexivity].
    + intros n H. discriminate H.
    + exact in_range_0.
    + intros H. reflexivity.
  - destruct (int64_of_decimal cursor) as [n |] eqn:Hdec.
    + rewrite (parseCursor_decimal _ _ Hdec). cbn [fst snd].
      split; [| split; [| split]].
      * split; [right; eexists; reflexivity | reflexivity].
      * intros m [= <-]. reflexivity.
      * exact (int64_of_decimal_range _ _ Hdec).
      * intros H. contradiction.
    + rewrite (parseCursor_not_decimal _ Hne Hdec). cbn [fst snd].
      split; [| split; [| split]].
      * split; [discriminate |]. intros [H | [m H]]; [contradiction | discriminate].
      * intros m H. discriminate H.
      * exact in_range_0.
      * reflexivity.
Qed.

(** [ParseInt] on a string that starts with a decimal digit reads it as
    unsigned. *)
Lemma ParseInt_plus s : strconv.ParseInt (String "+" s) = ParseInt_unsigned false s.
Proof. reflexivity. Qed.

Lemma FormatInt_nonneg_head x :
  0 <= x <= Int64.max_signed ->
  exists d rest, 0 <= d < 10 /\ strconv.FormatInt x = String (byte_of (48 + d)) rest.
Proof.
  intros Hx. unfold strconv.FormatInt, strconv.formatBits.
  replace (x <? 0) with false by (symmetry; apply Z.ltb_ge; lia).
  rewrite to_unsigned_nonneg by (unfold Int64.max_signed, Int64.max_unsigned in *; lia).
  apply formatBits_loop_head. lia.
Qed.

Lemma ParseInt_digit_head d rest :
  0 <= d < 10 ->
  strconv.ParseInt (String (byte_of (48 + d)) rest)
  = ParseInt_unsigned false (String (byte_of (48 + d)) rest).
Proof.
  intros Hd. unfold strconv.ParseInt. rewrite byte_val_byte_of by lia.
  replace (48 + d =? 43) with false by (symmetry; apply Z.eqb_neq; lia).
  replace (48 + d =? 45) with false by (symmetry; apply Z.eqb_neq; lia).
  reflexivity.
Qed.

Lemma ParseUint_leading_zero d rest :
  0 <= d < 10 ->
  strconv.ParseUint (String "0" (String (byte_of (48 + d)) rest))
  = strconv.ParseUint (String (byte_of (48 + d)) rest).
Proof.
  intros Hd. unfold strconv.ParseUint.
  change "0"%char with (byte_of (48 + 0)).
  rewrite (ParseUint_loop_digit 0) by (unfold Int64.max_unsigned; lia).
  reflexivity.
Qed.

(** X2. Cursors need not be in the form [ParseResponse] writes: for a
    non-negative [int64], its decimal string with a plus sign or with a zero
    in front decodes to the same offset, with no error. *)
Theorem parseCursor_noncanonical x :
  0 <= x <= Int64.max_signed ->
  parseCursor (String "+" (strconv.FormatInt x)) = (x, None)
  /\ parseCursor (String "0" (strconv.FormatInt x)) = (x, None).
Proof.
  intros Hx.
  assert (Hr : Int64.in_range x)
    by (unfold Int64.in_range, Int64.min_signed, Int64.max_signed in *; lia).
  pose proof (ParseInt_FormatInt x Hr) as HP.
  destruct (FormatInt_nonneg_head x Hx) as (d & rest & Hd & Heq).
  rewrite Heq in *. rewrite ParseInt_digit_head in HP by assumption.
  split.
  - rewrite parseCursor_ParseInt by discriminate.
    rewrite ParseInt_plus, HP. reflexivity.
  - rewrite parseCursor_ParseInt by discriminate.
    change "0"%char with (byte_of (48 + 0)).
    rewrite (ParseInt_digit_head 0) by lia.
    unfold ParseInt_unsigned in *.
    change (byte_of (48 + 0)) with "0"%char.
    rewrite ParseUint_leading_zero by assumption.
    rewrite HP. reflexivity.
Qed.

(** X2 at 7: the cursors [+7] and [07]. *)
Lemma parseCursor_noncanonical_7 :
  parseCursor "+7" = (7, None) /\ parseCursor "07" = (7, None).
Proof.
  apply (parseCursor_noncanonical 7). vm_compute. split; discriminate.
Defined.

(** ** The next cursor *)

Lemma FormatInt_not_empty x : strconv.FormatInt x <> "".
Proof.
  unfold strconv.FormatInt, strconv.formatBits.
  destruct (x <? 0); [discriminate |].
  assert (H : 0 <= Int64.to_unsigned x).
  { unfold Int64.to_unsigned. apply Z.mod_pos_bound. lia. }
  destruct (formatBits_loop_head 64 (Int64.to_unsigned x) EmptyString H)
    as (d & rest & _ & ->).
  discriminate.
Qed.

Lemma FormatInt_inj x y :
  Int64.in_range x -> Int64.in_range y ->
  strconv.FormatInt x = strconv.FormatInt y -> x = y.
Proof.
  intros Hx Hy Heq.
  pose proof (ParseInt_FormatInt x Hx) as H1.
  pose proof (ParseInt_FormatInt y Hy) as H2.
  rewrite Heq in H1. rewrite H1 in H2. injection H2 as ->. reflexivity.
Qed.

Section NextCursor.
Variable json_Unmarshal : string -> option DatasourceResponse.t * option json.error.

(** X3. For a decoded envelope, [ParseResponse] returns the records of the
    envelope, no error, and a next cursor that is empty exactly when the
    envelope says that no more data remains. *)
Theorem nextCursor_empty_iff_no_more body data :
  json_Unmarshal body = (Some data, None) ->
  exists nextCursor,
    ParseResponse json_Unmarshal body
    = Returned (DatasourceResponse.Objects data, nextCursor, None)
    /\ (nextCursor = "" <-> DatasourceResponse.More data = false).
Proof.
  intros Hdec. rewrite (ParseResponse_decoded _ _ _ Hdec).
  eexists. split; [reflexivity |].
  destruct (DatasourceResponse.More data).
  - split; [| discriminate]. intros H. exfalso. exact (FormatInt_not_empty _ H).
  - split; reflexivity.
Qed.

(** X4. The next cursor determines the next offset: two envelopes with more
    data get the same next cursor exactly when offset + limit, as [int64]
    values, are equal. *)
Theorem nextCursor_same_iff body1 data1 body2 data2 objects1 cursor1 objects2 cursor2 :
  json_Unmarshal body1 = (Some data1, None) ->
  json_Unmarshal body2 = (Some data2, None) ->
  DatasourceResponse.More data1 = true ->
  DatasourceResponse.More data2 = true ->
  ParseResponse json_Unmarshal body1 = Returned (objects1, cursor1, None) ->
  ParseResponse json_Unmarshal body2 = Returned (objects2, cursor2, None) ->
  (cursor1 = cursor2 <->
   Int64.add (DatasourceResponse.Offset data1) (DatasourceResponse.Limit data1)
   = Int64.add (DatasourceResponse.Offset data2) (DatasourceResponse.Limit data2)).
Proof.
  intros H1 H2 M1 M2 R1 R2.
  rewrite (ParseResponse_decoded _ _ _ H1), M1 in R1.
  rewrite (ParseResponse_decoded _ _ _ H2), M2 in R2.
  injection R1 as _ <-. injection R2 as _ <-.
  split.
  - apply FormatInt_inj; apply add_in_range.
  - intros ->. reflexivity.
Qed.

End NextCursor.

(** X3 at the second scenario. *)
Lemma nextCursor_empty_iff_two_teams :
  exists nextCursor,
    ParseResponse json.Unmarshal two_teams_body
    = Returned (Some [Some {[ "id" := any_string "1" ]}; Some {[ "id" := any_string "2" ]}],
                nextCursor, None)
    /\ (nextCursor = "" <-> true = false).
Proof.
  apply (nextCursor_empty_iff_no_more json.Unmarshal two_teams_body two_teams_data).
  vm_compute. reflexivity.
Defined.

(** X4 at the envelopes with offset 0, limit 2 and with offset 1, limit 1. *)
Lemma nextCursor_same_for_0_2_and_1_1 :
  "2" = "2" <-> Int64.add 0 2 = Int64.add 1 1.
Proof.
  apply (nextCursor_same_iff json.Unmarshal two_teams_body two_teams_data
           paired_body paired_data
           (Some [Some {[ "id" := any_string "1" ]}; Some {[ "id" := any_string "2" ]}])
           "2" (Some []) "2").
  - vm_compute. reflexivity.
  - vm_compute. reflexivity.
  - reflexivity.
  - reflexivity.
  - vm_compute. reflexivity.
  - vm_compute. reflexivity.
Defined.

(** ** The page fetcher: results, errors and effects *)


Section Fetcher.
Variable json_Unmarshal : string -> option DatasourceResponse.t * option json.error.
Variable url_ok : string -> bool.

(** The three forms of the result of [ParseResponse]. *)
Lemma ParseResponse_cases body :
  (exists data err,
     json_Unmarshal body = (data, Some err)
     /\ ParseResponse json_Unmarshal body =
          Returned (None, "",
            Some {| Message := unmarshal_message err; Code := ERROR_CODE_INTERNAL |}))
  \/ (exists data,
        json_Unmarshal body = (Some data, None)
        /\ ParseResponse json_Unmarshal body =
             Returned (DatasourceResponse.Objects data,
                       (if DatasourceResponse.More data
                        then strconv.FormatInt
                               (Int64.add (DatasourceResponse.Offset data)
                                          (DatasourceResponse.Limit data))
                        else ""), None))
  \/ (json_Unmarshal body = (None, None)
      /\ ParseResponse json_Unmarshal body =
           Panicked "runtime error: invalid memory address or nil pointer dereference").
Proof.
  destruct (json_Unmarshal body) as [[data |] [err |]] eqn:H.
  - left. exists (Some data), err. split; [reflexivity |].
    exact (ParseResponse_unmarshal_error _ _ _ _ H).
  - right. left. exists data. split; [reflexivity |].
    exact (ParseResponse_decoded _ _ _ H).
  - left. exists None, err. split; [reflexivity |].
    exact (ParseResponse_unmarshal_error _ _ _ _ H).
  - right. right. split; [reflexivity |].
    exact (ParseResponse_nil_pointer _ _ H).
Qed.

Lemma GetPage_takes_a_path d request :
  exists out ext,
    GetPage_path json_Unmarshal url_ok d request out ext
    /\ forall tr, GetPage json_Unmarshal url_ok d request tr = (out, tr ++ ext).
Proof.
  destruct (parseCursor (Request.Cursor request)) as [offset [e |]] eqn:Hc.
  { exists (Returned (None, Some e)), []. split; [exact (path_cursor _ _ _ _ _ _ Hc) |].
    intros tr. rewrite app_nil_r. exact (GetPage_cursor_error _ _ _ _ _ _ _ Hc). }
  destruct (url_ok (page_url request offset)) eqn:Hu.
  2:{ eexists _, []. split; [exact (path_url _ _ _ _ _ Hc Hu) |].
      intros tr. rewrite app_nil_r. exact (GetPage_url_refused _ _ _ _ _ _ Hc Hu). }
  destruct (http.Do (Client d) (outbound_request request offset)) as [res |] eqn:Hdo.
  2:{ eexists _, _. split; [exact (path_transport _ _ _ _ _ Hc Hu Hdo) |].
      intros tr. exact (GetPage_transport_error _ _ _ _ _ _ Hc Hu Hdo). }
  destruct (Z.eq_dec (http.StatusCode res) http.StatusOK) as [Hst | Hst].
  2:{ eexists _, _. split; [exact (path_status _ _ _ _ _ _ Hc Hu Hdo Hst) |].
      intros tr. exact (GetPage_status_not_ok _ _ _ _ _ _ _ Hc Hu Hdo Hst). }
  destruct (http.RespBody res) as [body |] eqn:Hbody.
  - eexists _, _. split; [exact (path_body _ _ _ _ _ _ _ Hc Hu Hdo Hst Hbody) |].
    intros tr. exact (GetPage_body _ _ _ _ _ _ _ _ Hc Hu Hdo Hst Hbody).
  - eexists _, _. split; [exact (path_read _ _ _ _ _ _ Hc Hu Hdo Hst Hbody) |].
    intros tr. exact (GetPage_read_error _ _ _ _ _ _ _ Hc Hu Hdo Hst Hbody).
Qed.

Lemma GetPage_path_inv d request tr :
  exists ext,
    GetPage_path json_Unmarshal url_ok d request (fst (GetPage json_Unmarshal url_ok d request tr)) ext
    /\ snd (GetPage json_Unmarshal url_ok d request tr) = tr ++ ext.
Proof.
  destruct (GetPage_takes_a_path d request) as (out & ext & Hpath & Hrun).
  exists ext. rewrite (Hrun tr). split; [exact Hpath | reflexivity].
Qed.

(** X13. When [GetPage] returns, the effects it has added are one of
    three sequences: none, and then it returns an error and no response; the
    one request built for the decoded offset, followed by the cancel; or that
    request, the read of the body, its close and the cancel.  So a call that
    returns has sent at most one request, and the cancel is its last effect,
    after the close. *)
Theorem GetPage_effects_on_return d request tr response err :
  fst (GetPage json_Unmarshal url_ok d request tr) = Returned (response, err) ->
  (snd (GetPage json_Unmarshal url_ok d request tr) = tr
   /\ response = None /\ err <> None)
  \/ exists offset,
       parseCursor (Request.Cursor request) = (offset, None)
       /\ url_ok (page_url request offset) = true
       /\ (snd (GetPage json_Unmarshal url_ok d request tr)
           = tr ++ [EvDo (outbound_request request offset); EvCancel]
           \/ snd (GetPage json_Unmarshal url_ok d request tr)
              = tr ++ [EvDo (outbound_request request offset);
                       EvReadAll; EvBodyClose; EvCancel]).
Proof.
  destruct (GetPage_takes_a_path d request) as (out & ext & Hpath & Hrun).
  rewrite (Hrun tr). cbn [fst snd]. intros ->.
  inversion Hpath as
    [offset e Hc | offset Hc Hu | offset Hc Hu Hdo | offset res Hc Hu Hdo Hst
    | offset res Hc Hu Hdo Hst Hb | offset res body Hc Hu Hdo Hst Hb Hres]; subst.
  - left. rewrite app_nil_r. split; [reflexivity | split; [reflexivity | discriminate]].
  - left. rewrite app_nil_r. split; [reflexivity | split; [reflexivity | discriminate]].
  - right. exists offset. split; [exact Hc | split; [exact Hu |]]. left. reflexivity.
  - right. exists offset. split; [exact Hc | split; [exact Hu |]]. left. reflexivity.
  - right. exists offset. split; [exact Hc | split; [exact Hu |]]. right. reflexivity.
  - right. exists offset. split; [exact Hc | split; [exact Hu |]]. right. reflexivity.
Qed.

(** X11. When [GetPage] returns, it returns either an error and no
    response, or a response and no error. *)
Theorem GetPage_response_xor_error d request tr response err :
  fst (GetPage json_Unmarshal url_ok d request tr) = Returned (response, err) ->
  (response = None /\ err <> None) \/ (response <> None /\ err = None).
Proof.
  destruct (GetPage_path_inv d request tr) as (ext & Hpath & _).
  intros Hret. rewrite Hret in Hpath.
  inversion Hpath as
    [offset e Hc | offset Hc Hu | offset Hc Hu Hdo | offset res Hc Hu Hdo Hst
    | offset res Hc Hu Hdo Hst Hb | offset res body Hc Hu Hdo Hst Hb Hres]; subst;
    try (left; split; [reflexivity | discriminate]);
    try (right; split; [discriminate | reflexivity]).
  unfold page_result in Hres.
  destruct (ParseResponse json_Unmarshal body) as [[[objects nextCursor] [pe |]] | reason];
    [| | discriminate Hres]; injection Hres as <- <-.
  - left. split; [reflexivity | discriminate].
  - right. split; [discriminate | reflexivity].
Qed.


(** X12. An error that [GetPage] returns comes with no response and is
    one of five: the error of [parseCursor], with the code
    [ERROR_CODE_INVALID_PAGE_REQUEST_CONFIG] and no effect; the failure to
    build the request, with no effect; the failure to send it; the failure to
    read the body; or the decode error of [ParseResponse].  The body is left
    unclosed in the third case and closed in the last two. *)
Theorem GetPage_error_classes d request tr response e :
  fst (GetPage json_Unmarshal url_ok d request tr) = Returned (response, Some e) ->
  response = None
  /\ ((Code e = ERROR_CODE_INVALID_PAGE_REQUEST_CONFIG
       /\ snd (parseCursor (Request.Cursor request)) = Some e
       /\ snd (GetPage json_Unmarshal url_ok d request tr) = tr)
      \/ (e = {| Message := "Failed to create HTTP request to datasource.";
                 Code := ERROR_CODE_INTERNAL |}
          /\ snd (GetPage json_Unmarshal url_ok d request tr) = tr)
      \/ (e = {| Message := "Failed to send request to datasource.";
                 Code := ERROR_CODE_INTERNAL |}
          /\ closes_body (snd (GetPage json_Unmarshal url_ok d request [])) = false)
      \/ (e = {| Message := "Failed to read response body.";
                 Code := ERROR_CODE_DATASOURCE_FAILED |}
          /\ closes_body (snd (GetPage json_Unmarshal url_ok d request [])) = true)
      \/ (exists err,
            e = {| Message := unmarshal_message err; Code := ERROR_CODE_INTERNAL |}
            /\ closes_body (snd (GetPage json_Unmarshal url_ok d request [])) = true)).
Proof.
  destruct (GetPage_takes_a_path d request) as (out & ext & Hpath & Hrun).
  rewrite (Hrun tr), (Hrun []). cbn [fst snd]. intros ->.
  inversion Hpath as
    [offset e' Hc | offset Hc Hu | offset Hc Hu Hdo | offset res Hc Hu Hdo Hst
    | offset res Hc Hu Hdo Hst Hb | offset res body Hc Hu Hdo Hst Hb Hres]; subst.
  - split; [reflexivity |]. left. rewrite Hc, app_nil_r. cbn [snd].
    split; [exact (parseCursor_error_code _ _ _ Hc) | split; reflexivity].
  - split; [reflexivity |]. right. left. rewrite app_nil_r. split; reflexivity.
  - split; [reflexivity |]. right. right. left. split; reflexivity.
  - split; [reflexivity |]. do 3 right. left. split; reflexivity.
  - unfold page_result in Hres.
    destruct (ParseResponse_cases body) as [(data & err & _ & HP) | [(data & _ & HP) | (_ & HP)]];
      rewrite HP in Hres; [| discriminate Hres | discriminate Hres].
    injection Hres as <- <-.
    split; [reflexivity |]. do 4 right. exists err. split; reflexivity.
Qed.

(** X14. Once the datasource has answered the request, [GetPage] panics
    exactly when the status is 200, the body was read and the decoder left
    the envelope pointer nil without an error; and when it panics, the
    deferred close of the body and the deferred cancel have run. *)
Theorem GetPage_panics_iff_nil_envelope d request offset res tr :
  parseCursor (Request.Cursor request) = (offset, None) ->
  url_ok (page_url request offset) = true ->
  http.Do (Client d) (outbound_request request offset) = Some res ->
  ((exists reason, fst (GetPage json_Unmarshal url_ok d request tr) = Panicked reason)
   <-> (http.StatusCode res = http.StatusOK
        /\ exists body,
             http.RespBody res = http.body_bytes body
             /\ json_Unmarshal body = (None, None)))
  /\ ((exists reason, fst (GetPage json_Unmarshal url_ok d request tr) = Panicked reason) ->
      snd (GetPage json_Unmarshal url_ok d request tr)
      = tr ++ [EvDo (outbound_request request offset); EvReadAll; EvBodyClose; EvCancel]).
Proof.
  intros Hc Hu Hdo.
  destruct (Z.eq_dec (http.StatusCode res) http.StatusOK) as [Hst | Hst].
  2:{ rewrite (GetPage_status_not_ok _ _ _ _ _ _ _ Hc Hu Hdo Hst). cbn [fst snd].
      split; [split |].
      - intros (reason & H). discriminate H.
      - intros (Hok & _). contradiction.
      - intros (reason & H). discriminate H. }
  destruct (http.RespBody res) as [body |] eqn:Hb.
  2:{ rewrite (GetPage_read_error _ _ _ _ _ _ _ Hc Hu Hdo Hst Hb). cbn [fst snd].
      split; [split |].
      - intros (reason & H). discriminate H.
      - intros (_ & body & Hbody & _). discriminate Hbody.
      - reflexivity. }
  rewrite (GetPage_body _ _ _ _ _ _ _ _ Hc Hu Hdo Hst Hb). cbn [fst snd].
  split; [split |].
  - intros (reason & Hres). split; [exact Hst |]. exists body. split; [reflexivity |].
    unfold page_result in Hres.
    destruct (ParseResponse_cases body)
      as [(data & err & _ & HP) | [(data & _ & HP) | (Hnil & _)]];
      [rewrite HP in Hres; discriminate Hres | rewrite HP in Hres; discriminate Hres
      | exact Hnil].
  - intros (_ & body' & Hbody & Hnil). injection Hbody as <-.
    rewrite (ParseResponse_nil_pointer _ _ Hnil). cbn [page_result]. eexists. reflexivity.
  - reflexivity.
Qed.

(** A body with status 200 that decodes to an envelope. *)
Lemma GetPage_decoded_body d request offset res body data tr :
  parseCursor (Request.Cursor request) = (offset, None) ->
  url_ok (page_url request offset) = true ->
  http.Do (Client d) (outbound_request request offset) = Some res ->
  http.StatusCode res = http.StatusOK ->
  http.RespBody res = http.body_bytes body ->
  json_Unmarshal body = (Some data, None) ->
  GetPage json_Unmarshal url_ok d request tr =
    (Returned
       (Some {| Response.StatusCode := 200;
                Response.RetryAfterHeader :=
                  http.Header_Get "Retry-After" (http.RespHeader res);
                Response.Objects := DatasourceResponse.Objects data;
                Response.NextCursor :=
                  if DatasourceResponse.More data
                  then strconv.FormatInt
                         (Int64.add (DatasourceResponse.Offset data)
                                    (DatasourceResponse.Limit data))
                  else "" |},
        None),
     tr ++ [EvDo (outbound_request request offset); EvReadAll; EvBodyClose; EvCancel]).
Proof.
  intros Hc Hu Hdo Hst Hb Hdec.
  rewrite (GetPage_body _ _ _ _ _ _ _ _ Hc Hu Hdo Hst Hb).
  rewrite (ParseResponse_decoded _ _ _ Hdec). unfold page_result.
  rewrite Hst. reflexivity.
Qed.

(** X6. When the datasource answers 200 with a body the decoder refuses,
    [GetPage] returns no response and the error of [ParseResponse], with the
    code [ERROR_CODE_INTERNAL] and the text of the decoder in its message,
    after the body has been closed. *)
Theorem GetPage_undecodable_body d request offset res body data err tr :
  parseCursor (Request.Cursor request) = (offset, None) ->
  url_ok (page_url request offset) = true ->
  http.Do (Client d) (outbound_request request offset) = Some res ->
  http.StatusCode res = http.StatusOK ->
  http.RespBody res = http.body_bytes body ->
  json_Unmarshal body = (data, Some err) ->
  GetPage json_Unmarshal url_ok d request tr =
    (Returned
       (None,
        Some {| Message := "Failed to unmarshal the datasource response: "
                             +:+ json.Error err +:+ ".";
                Code := ERROR_CODE_INTERNAL |}),
     tr ++ [EvDo (outbound_request request offset); EvReadAll; EvBodyClose; EvCancel]).
Proof.
  intros Hc Hu Hdo Hst Hb Hdec.
  rewrite (GetPage_body _ _ _ _ _ _ _ _ Hc Hu Hdo Hst Hb).
  rewrite (ParseResponse_unmarshal_error _ _ _ _ Hdec). reflexivity.
Qed.

(** X15. Once the datasource has answered, the call closes the body of the
    response exactly when the status is 200. *)
Theorem body_closed_iff_status_ok d request offset res :
  parseCursor (Request.Cursor request) = (offset, None) ->
  url_ok (page_url request offset) = true ->
  http.Do (Client d) (outbound_request request offset) = Some res ->
  closes_body (snd (GetPage json_Unmarshal url_ok d request []))
  = (http.StatusCode res =? http.StatusOK).
Proof.
  intros Hc Hu Hdo.
  destruct (Z.eq_dec (http.StatusCode res) http.StatusOK) as [Hst | Hst].
  - rewrite (GetPage_ok_closes_body _ _ _ _ _ _ _ Hc Hu Hdo Hst).
    symmetry. apply Z.eqb_eq. exact Hst.
  - rewrite (GetPage_status_not_ok_leaves_body _ _ _ _ _ _ _ Hc Hu Hdo Hst).
    symmetry. apply Z.eqb_neq. exact Hst.
Qed.

(** X7. Following the cursor: when a page comes back with more data, a
    request that carries the next cursor of the response is sent for the
    offset that is offset + limit of the envelope, as [int64] values. *)
Theorem GetPage_follows_cursor d request offset res body data tr d2 request2 tr2 :
  parseCursor (Request.Cursor request) = (offset, None) ->
  url_ok (page_url request offset) = true ->
  http.Do (Client d) (outbound_request request offset) = Some res ->
  http.StatusCode res = http.StatusOK ->
  http.RespBody res = http.body_bytes body ->
  json_Unmarshal body = (Some data, None) ->
  DatasourceResponse.More data = true ->
  exists response,
    fst (GetPage json_Unmarshal url_ok d request tr) = Returned (Some response, None)
    /\ (Request.Cursor request2 = Response.NextCursor response ->
        url_ok (page_url request2
                  (Int64.add (DatasourceResponse.Offset data)
                             (DatasourceResponse.Limit data))) = true ->
        sent_requests (snd (GetPage json_Unmarshal url_ok d2 request2 tr2))
        = sent_requests tr2
          ++ [outbound_request request2
                (Int64.add (DatasourceResponse.Offset data)
                           (DatasourceResponse.Limit data))]).
Proof.
  intros Hc Hu Hdo Hst Hb Hdec Hmore.
  rewrite (GetPage_decoded_body _ _ _ _ _ _ _ Hc Hu Hdo Hst Hb Hdec), Hmore.
  eexists. split; [reflexivity |]. cbn [Response.NextCursor].
  intros Hcur Hu2. apply GetPage_sends; [| exact Hu2].
  rewrite Hcur. apply parseCursor_FormatInt, add_in_range.
Qed.


(** X5. When the datasource answers 200 with a body that decodes to an
    envelope, [GetPage] returns no error and a response with status 200, the
    value of the header Retry-After, the records of the envelope unchanged
    and the next cursor; it has sent one request, read the body, closed it
    and run the cancel, in that order. *)
Theorem GetPage_success d request offset res body data tr :
  parseCursor (Request.Cursor request) = (offset, None) ->
  url_ok (page_url request offset) = true ->
  http.Do (Client d) (outbound_request request offset) = Some res ->
  http.StatusCode res = http.StatusOK ->
  http.RespBody res = http.body_bytes body ->
  json_Unmarshal body = (Some data, None) ->
  exists response,
    GetPage json_Unmarshal url_ok d request tr =
      (Returned (Some response, None),
       tr ++ [EvDo (outbound_request request offset); EvReadAll; EvBodyClose; EvCancel])
    /\ Response.StatusCode response = 200
    /\ Response.RetryAfterHeader response
       = http.Header_Get "Retry-After" (http.RespHeader res)
    /\ Response.Objects response = DatasourceResponse.Objects data
    /\ (DatasourceResponse.More data = true ->
        parseCursor (Response.NextCursor response)
        = (Int64.add (DatasourceResponse.Offset data) (DatasourceResponse.Limit data),
           None))
    /\ (DatasourceResponse.More data = false -> Response.NextCursor response = "").
Proof.
  intros Hc Hu Hdo Hst Hb Hdec.
  rewrite (GetPage_decoded_body _ _ _ _ _ _ _ Hc Hu Hdo Hst Hb Hdec).
  eexists. split; [reflexivity |].
  cbn [Response.StatusCode Response.RetryAfterHeader Response.Objects Response.NextCursor].
  repeat split.
  - intros ->. apply parseCursor_FormatInt, add_in_range.
  - intros ->. reflexivity.
Qed.

(** X9. When the client fails to send the request, [GetPage] returns no
    response and an error with the code [ERROR_CODE_INTERNAL]; it has made
    that one attempt, has not read or closed any body, and has run the
    cancel. *)
Theorem GetPage_transport_failure d request offset tr :
  parseCursor (Request.Cursor request) = (offset, None) ->
  url_ok (page_url request offset) = true ->
  http.Do (Client d) (outbound_request request offset) = None ->
  exists e,
    GetPage json_Unmarshal url_ok d request tr =
      (Returned (None, Some e),
       tr ++ [EvDo (outbound_request request offset); EvCancel])
    /\ Code e = ERROR_CODE_INTERNAL
    /\ Message e = "Failed to send request to datasource."
    /\ sent_requests (snd (GetPage json_Unmarshal url_ok d request tr))
       = sent_requests tr ++ [outbound_request request offset].
Proof.
  intros Hc Hu Hdo.
  rewrite (GetPage_transport_error _ _ _ _ _ _ Hc Hu Hdo).
  eexists. split; [reflexivity | split; [reflexivity | split; [reflexivity |]]].
  cbn [snd]. rewrite sent_requests_app. reflexivity.
Qed.

(** X10. When the datasource answers 200 and the body cannot be read,
    [GetPage] returns no response and an error with the code
    [ERROR_CODE_DATASOURCE_FAILED], whatever the decoder would do; the body
    is closed and the cancel is run. *)
Theorem GetPage_read_failure d request offset res tr :
  parseCursor (Request.Cursor request) = (offset, None) ->
  url_ok (page_url request offset) = true ->
  http.Do (Client d) (outbound_request request offset) = Some res ->
  http.StatusCode res = http.StatusOK ->
  http.RespBody res = http.body_read_error ->
  exists e,
    GetPage json_Unmarshal url_ok d request tr =
      (Returned (None, Some e),
       tr ++ [EvDo (outbound_request request offset); EvReadAll; EvBodyClose; EvCancel])
    /\ Code e = ERROR_CODE_DATASOURCE_FAILED
    /\ Message e = "Failed to read response body.".
Proof.
  intros Hc Hu Hdo Hst Hb.
  rewrite (GetPage_read_error _ _ _ _ _ _ _ Hc Hu Hdo Hst Hb).
  eexists. split; [reflexivity | split; reflexivity].
Qed.

End Fetcher.

(** ** The outbound request and the client *)

Lemma to_signed_fixed x : Int64.to_signed x = x -> Int64.in_range x.
Proof. intros <-. apply to_signed_range. Qed.

(** X17. The timeout of the client that [NewClient] builds is the given
    number of seconds exactly when that number lies between -9223372036 and
    9223372036; outside, the product with [time.Second] wraps. *)
Theorem NewClient_Timeout_exact_iff timeout :
  Int64.in_range timeout ->
  (NewClient_Timeout timeout = timeout * Second
   <-> -9223372036 <= timeout <= 9223372036).
Proof.
  intros Hr. unfold NewClient_Timeout. rewrite (to_signed_in_range _ Hr).
  split.
  - intros H. apply to_signed_fixed in H.
    unfold Int64.in_range, Int64.min_signed, Int64.max_signed, Second in H. lia.
  - intros H. apply to_signed_in_range.
    unfold Int64.in_range, Int64.min_signed, Int64.max_signed, Second. lia.
Qed.

(** X17 at 30 seconds. *)
Lemma NewClient_Timeout_30 :
  NewClient_Timeout 30 = 30 * Second <-> -9223372036 <= 30 <= 9223372036.
Proof. apply (NewClient_Timeout_exact_iff 30). vm_compute. split; discriminate. Defined.

(** X16. The request that goes out is a GET with exactly three headers:
    Accept with the PagerDuty media type, Authorization with the value of the
    request, unchanged, and Content-Type with application/json. *)
Theorem outbound_request_headers request offset :
  http.Method (outbound_request request offset) = "GET"
  /\ http.ReqHeader (outbound_request request offset)
     = {[ "Accept" := ["application/vnd.pagerduty+json;version=2"];
          "Authorization" := [Request.HTTPAuthorization request];
          "Content-Type" := ["application/json"] ]}
  /\ http.Header_Get "Authorization" (http.ReqHeader (outbound_request request offset))
     = Request.HTTPAuthorization request.
Proof.
  split; [reflexivity |].
  assert (Hh : http.ReqHeader (outbound_request request offset)
     = {[ "Accept" := ["application/vnd.pagerduty+json;version=2"];
          "Authorization" := [Request.HTTPAuthorization request];
          "Content-Type" := ["application/json"] ]}).
  { cbn [outbound_request add_headers http.ReqHeader]. unfold http.Header_Add, http.Header.
    repeat first [rewrite lookup_empty | rewrite lookup_insert_ne by done].
    cbn [default app].
    apply map_eq. intros key.
    destruct (decide (key = "Content-Type")) as [-> | H1]; [by simplify_map_eq |].
    destruct (decide (key = "Authorization")) as [-> | H2]; [by simplify_map_eq |].
    destruct (decide (key = "Accept")) as [-> | H3]; by simplify_map_eq. }
  split; [exact Hh |].
  rewrite Hh. unfold http.Header_Get. by simplify_map_eq.
Qed.

(** ** The envelope as the decoder fills it *)

(** A member whose key does not select [more] leaves the field as it is. *)
Lemma decode_member_More tg k v :
  json.key_selects "more" (json.unquote k) = false ->
  DatasourceResponse.More (json.filled (fst (json.decode_member tg k v)))
  = DatasourceResponse.More (json.filled tg).
Proof.
  intros Hk. unfold json.decode_member.
  destruct (json.key_selects "teams" (json.unquote k)).
  - destruct v as [| b | lit | raw | elems | members]; try reflexivity.
    destruct elems as [| x elems]; [reflexivity |].
    destruct (json.decode_elems _ (x :: elems)) as [[l unused] e]. reflexivity.
  - rewrite Hk.
    destruct (json.key_selects "limit" (json.unquote k)).
    + destruct (json.decode_int64 "limit" _ v); reflexivity.
    + destruct (json.key_selects "offset" (json.unquote k)); [| reflexivity].
      destruct (json.decode_int64 "offset" _ v); reflexivity.
Qed.

Lemma decode_members_More members : forall tg,
  Forall (fun m => json.key_selects "more" (json.unquote (fst m)) = false) members ->
  DatasourceResponse.More (json.filled (fst (json.decode_members tg members)))
  = DatasourceResponse.More (json.filled tg).
Proof.
  induction members as [| [k v] members IH]; intros tg Hall; [reflexivity |].
  inversion Hall as [| m ms Hk Hrest]; subst. cbn [json.decode_members].
  pose proof (decode_member_More tg k v Hk) as H1.
  destruct (json.decode_member tg k v) as [tg1 e1]. cbn [fst] in H1.
  specialize (IH tg1 Hrest).
  destruct (json.decode_members tg1 members) as [tg2 e2]. cbn [fst] in *.
  congruence.
Qed.

(** What [Unmarshal] makes of a JSON object. *)
Lemma Unmarshal_object body members rest :
  json.checkValid body = json.Read (json.Object members) rest ->
  json.Unmarshal body
  = (Some (json.filled (fst (json.decode_members
                               {| json.filled := json.zero; json.spare := [] |} members))),
     snd (json.decode_members {| json.filled := json.zero; json.spare := [] |} members)).
Proof.
  intros Hvalid. unfold json.Unmarshal. rewrite Hvalid.
  destruct (json.decode_members _ members); reflexivity.
Qed.

(** A second array for [teams] is decoded into the elements the first one
    left: the maps are added to, not replaced. *)
Lemma Unmarshal_repeated_teams :
  json.Unmarshal repeated_teams_body
  = (Some {| DatasourceResponse.Objects :=
               Some [Some {[ "a" := any_string "1"; "b" := any_string "2" ]}];
             DatasourceResponse.More := false;
             DatasourceResponse.Limit := 0;
             DatasourceResponse.Offset := 0 |}, None).
Proof. vm_compute. reflexivity. Qed.

(** [null] for [teams] sets the slice back to nil. *)
Lemma Unmarshal_teams_then_null :
  json.Unmarshal teams_then_null_body
  = (Some {| DatasourceResponse.Objects := None;
             DatasourceResponse.More := false;
             DatasourceResponse.Limit := 0;
             DatasourceResponse.Offset := 0 |}, None).
Proof. vm_compute. reflexivity. Qed.

(** An element that a shorter array cut off is still in the array under
    the slice, and a longer array that follows is decoded into it. *)
Lemma Unmarshal_shrunk_teams :
  json.Unmarshal shrunk_teams_body
  = (Some {| DatasourceResponse.Objects :=
               Some [Some {[ "a" := any_string "1"; "c" := any_string "3";
                             "d" := any_string "4" ]};
                     Some {[ "b" := any_string "2"; "e" := any_string "5" ]}];
             DatasourceResponse.More := false;
             DatasourceResponse.Limit := 0;
             DatasourceResponse.Offset := 0 |}, None).
Proof. vm_compute. reflexivity. Qed.

(** X18. A body that is a JSON object with no member for [more] never gives
    a next cursor: [ParseResponse] returns the empty cursor, with or without
    an error. *)
Theorem no_more_member_no_next_cursor body members rest :
  json.checkValid body = json.Read (json.Object members) rest ->
  Forall (fun m => json.key_selects "more" (json.unquote (fst m)) = false) members ->
  exists objects err,
    ParseResponse json.Unmarshal body = Returned (objects, "", err).
Proof.
  intros Hvalid Hall.
  pose proof (Unmarshal_object body members rest Hvalid) as HU.
  pose proof (decode_members_More members
                {| json.filled := json.zero; json.spare := [] |} Hall) as HM.
  cbn [json.filled json.zero DatasourceResponse.More] in HM.
  destruct (snd (json.decode_members _ members)) as [e |] eqn:He.
  - do 2 eexists. exact (ParseResponse_unmarshal_error _ _ _ _ HU).
  - do 2 eexists. rewrite (ParseResponse_decoded _ _ _ HU), HM. reflexivity.
Qed.

(** X18 at an envelope with records, limit and offset only. *)
Lemma no_more_member_witness :
  exists objects err,
    ParseResponse json.Unmarshal no_more_key_body = Returned (objects, "", err).
Proof.
  eapply (no_more_member_no_next_cursor no_more_key_body).
  - vm_compute. reflexivity.
  - repeat constructor.
Defined.

(** A limit that [strconv.ParseInt] refuses is an error of the member. *)
Lemma decode_member_rejects_limit tg k lit :
  json.unquote k = "limit" ->
  snd (strconv.ParseInt lit) <> None ->
  snd (json.decode_member tg k (json.Number lit))
  = Some (json.field_error "limit" ("number " +:+ lit) "int64").
Proof.
  intros Hk Hp. unfold json.decode_member. rewrite Hk.
  change (json.key_selects "teams" "limit") with false.
  change (json.key_selects "more" "limit") with false.
  change (json.key_selects "limit" "limit") with true. cbv iota.
  unfold json.decode_int64.
  destruct (strconv.ParseInt lit) as [n [e |]]; [reflexivity | contradiction].
Qed.

(** The first error of the members is the error of the object. *)
Lemma decode_members_keeps_error members : forall st,
  Exists (fun m => exists lit, snd m = json.Number lit
                   /\ json.unquote (fst m) = "limit"
                   /\ snd (strconv.ParseInt lit) <> None) members ->
  snd (json.decode_members st members) <> None.
Proof.
  induction members as [| [k v] members IH]; intros st Hex; inversion Hex as [m ms Hm | m ms Hrest]; subst.
  - destruct Hm as (lit & Hv & Hk & Hp). cbn [fst snd] in *. subst v.
    cbn [json.decode_members].
    pose proof (decode_member_rejects_limit st k lit Hk Hp) as H1.
    destruct (json.decode_member st k (json.Number lit)) as [st1 e1]. cbn [snd] in H1. subst e1.
    destruct (json.decode_members st1 members) as [st2 e2]. cbn. discriminate.
  - cbn [json.decode_members].
    destruct (json.decode_member st k v) as [st1 e1].
    specialize (IH st1 Hrest).
    destruct (json.decode_members st1 members) as [st2 e2]. cbn [snd] in *.
    destruct e1; [discriminate | exact IH].
Qed.

(** X19. A body that is a JSON object in which [limit] is a number that is
    no base-10 signed 64-bit integer (a fraction, an exponent, a number out
    of range) is refused as a whole: [ParseResponse] returns no records, the
    empty cursor and an error with the code [ERROR_CODE_INTERNAL]. *)
Theorem non_integer_limit_rejects_page body members rest :
  json.checkValid body = json.Read (json.Object members) rest ->
  Exists (fun m => exists lit, snd m = json.Number lit
                   /\ json.unquote (fst m) = "limit"
                   /\ snd (strconv.ParseInt lit) <> None) members ->
  exists e,
    ParseResponse json.Unmarshal body = Returned (None, "", Some e)
    /\ Code e = ERROR_CODE_INTERNAL.
Proof.
  intros Hvalid Hex.
  pose proof (decode_members_keeps_error members
                {| json.filled := json.zero; json.spare := [] |} Hex) as He.
  pose proof (Unmarshal_object body members rest Hvalid) as HU.
  destruct (snd (json.decode_members _ members)) as [err |]; [| contradiction].
  eexists. split; [exact (ParseResponse_unmarshal_error _ _ _ _ HU) | reflexivity].
Qed.

(** X19 at the limit 1.5. *)
Lemma fractional_limit_rejected :
  exists e,
    ParseResponse json.Unmarshal fractional_limit_body = Returned (None, "", Some e)
    /\ Code e = ERROR_CODE_INTERNAL.
Proof.
  eapply (non_integer_limit_rejects_page fractional_limit_body).
  - vm_compute. reflexivity.
  - do 2 apply Exists_cons_tl. apply Exists_cons_hd.
    exists "1.5". split; [reflexivity | split; [reflexivity | vm_compute; discriminate]].
Defined.

(** ** The further properties at scenarios *)

(** X5 at the second scenario: two records and a cursor that decodes to 2. *)
Lemma GetPage_success_two_teams :
  exists response,
    GetPage json.Unmarshal any_url (answering (ok_with two_teams_body)) (teams_request "") []
    = (Returned (Some response, None),
       [EvDo (outbound_request (teams_request "") 0); EvReadAll; EvBodyClose; EvCancel])
    /\ Response.StatusCode response = 200
    /\ Response.Objects response
       = Some [Some {[ "id" := any_string "1" ]}; Some {[ "id" := any_string "2" ]}]
    /\ parseCursor (Response.NextCursor response) = (2, None).
Proof.
  destruct (GetPage_success json.Unmarshal any_url (answering (ok_with two_teams_body))
              (teams_request "") 0 (ok_with two_teams_body) two_teams_body
              two_teams_data [])
    as (response & Hrun & Hst & _ & Hobj & Hmore & _).
  - reflexivity.
  - reflexivity.
  - reflexivity.
  - reflexivity.
  - reflexivity.
  - vm_compute. reflexivity.
  - exists response. split; [exact Hrun | split; [exact Hst | split; [exact Hobj |]]].
    apply Hmore. reflexivity.
Defined.

(** X6 at a body that is no JSON text. *)
Lemma GetPage_undecodable_abc :
  GetPage json.Unmarshal any_url (answering (ok_with "abc")) (teams_request "") []
  = (Returned
       (None,
        Some {| Message := "Failed to unmarshal the datasource response: "
                  +:+ "invalid character 'a' looking for beginning of value.";
                Code := ERROR_CODE_INTERNAL |}),
     [EvDo (outbound_request (teams_request "") 0); EvReadAll; EvBodyClose; EvCancel]).
Proof.
  apply (GetPage_undecodable_body json.Unmarshal any_url (answering (ok_with "abc"))
           (teams_request "") 0 (ok_with "abc") "abc" None
           (json.SyntaxError "invalid character 'a' looking for beginning of value") []).
  - reflexivity.
  - reflexivity.
  - reflexivity.
  - reflexivity.
  - reflexivity.
  - vm_compute. reflexivity.
Defined.

(** X7 at the second scenario: the request with the cursor [2] goes out for
    offset 2. *)
Lemma GetPage_follows_cursor_two_teams :
  sent_requests
    (snd (GetPage json.Unmarshal any_url (answering (ok_with last_page_body))
            (teams_request "2") []))
  = [outbound_request (teams_request "2") 2]
  /\ http.URL (outbound_request (teams_request "2") 2)
     = url.Parse "https://api.pagerduty.com/teams?offset=2&limit=10"
  /\ url.RawQuery (http.URL (outbound_request (teams_request "2") 2))
     = "offset=2&limit=10".
Proof.
  destruct (GetPage_follows_cursor json.Unmarshal any_url
              (answering (ok_with two_teams_body)) (teams_request "") 0
              (ok_with two_teams_body) two_teams_body two_teams_data []
              (answering (ok_with last_page_body)) (teams_request "2") [])
    as (response & Hrun & Hnext).
  - reflexivity.
  - reflexivity.
  - reflexivity.
  - reflexivity.
  - reflexivity.
  - vm_compute. reflexivity.
  - reflexivity.
  - split; [| split; reflexivity]. apply Hnext; [| reflexivity].
    vm_compute in Hrun. injection Hrun as <-. reflexivity.
Defined.


(** X9 at a datasource that cannot be reached. *)
Lemma GetPage_transport_failure_teams :
  exists e,
    GetPage json.Unmarshal any_url unreachable (teams_request "") []
    = (Returned (None, Some e), [EvDo (outbound_request (teams_request "") 0); EvCancel])
    /\ Code e = ERROR_CODE_INTERNAL
    /\ Message e = "Failed to send request to datasource."
    /\ sent_requests
         (snd (GetPage json.Unmarshal any_url unreachable (teams_request "") []))
       = [outbound_request (teams_request "") 0].
Proof.
  apply (GetPage_transport_failure json.Unmarshal any_url unreachable
           (teams_request "") 0 []).
  - reflexivity.
  - reflexivity.
  - reflexivity.
Defined.

(** X10 at a response with status 200 whose body cannot be read. *)
Lemma GetPage_read_failure_teams :
  exists e,
    GetPage json.Unmarshal any_url (answering unreadable) (teams_request "") []
    = (Returned (None, Some e),
       [EvDo (outbound_request (teams_request "") 0); EvReadAll; EvBodyClose; EvCancel])
    /\ Code e = ERROR_CODE_DATASOURCE_FAILED
    /\ Message e = "Failed to read response body.".
Proof.
  apply (GetPage_read_failure json.Unmarshal any_url (answering unreadable)
           (teams_request "") 0 unreadable []).
  - reflexivity.
  - reflexivity.
  - reflexivity.
  - reflexivity.
  - reflexivity.
Defined.

(** X11 at the fourth scenario: a response and no error. *)
Lemma GetPage_response_xor_error_429 :
  (Some (status_response too_many_requests) = None /\ @None Error <> None)
  \/ (Some (status_response too_many_requests) <> None /\ @None Error = None).
Proof.
  apply (GetPage_response_xor_error json.Unmarshal any_url (answering too_many_requests)
           (teams_request "") []).
  vm_compute. reflexivity.
Defined.

(** X15 at the fourth scenario and at the second: the body is closed for
    status 200 only. *)
Lemma body_closed_iff_status_ok_429 :
  closes_body
    (snd (GetPage json.Unmarshal any_url (answering too_many_requests) (teams_request "") []))
  = false.
Proof.
  apply (body_closed_iff_status_ok json.Unmarshal any_url (answering too_many_requests)
           (teams_request "") 0 too_many_requests).
  - reflexivity.
  - reflexivity.
  - reflexivity.
Defined.

(** X12 at a datasource that cannot be reached: the error is the failure to
    send, the third of the five. *)
Lemma GetPage_error_classes_unreachable :
  let e := {| Message := "Failed to send request to datasource.";
              Code := ERROR_CODE_INTERNAL |} in
  let run := GetPage json.Unmarshal any_url unreachable (teams_request "") in
  @None Response.t = None
  /\ ((Code e = ERROR_CODE_INVALID_PAGE_REQUEST_CONFIG
       /\ snd (parseCursor (Request.Cursor (teams_request ""))) = Some e
       /\ snd (run []) = [])
      \/ (e = {| Message := "Failed to create HTTP request to datasource.";
                 Code := ERROR_CODE_INTERNAL |}
          /\ snd (run []) = [])
      \/ (e = {| Message := "Failed to send request to datasource.";
                 Code := ERROR_CODE_INTERNAL |}
          /\ closes_body (snd (run [])) = false)
      \/ (e = {| Message := "Failed to read response body.";
                 Code := ERROR_CODE_DATASOURCE_FAILED |}
          /\ closes_body (snd (run [])) = true)
      \/ (exists err,
            e = {| Message := unmarshal_message err; Code := ERROR_CODE_INTERNAL |}
            /\ closes_body (snd (run [])) = true)).
Proof.
  apply (GetPage_error_classes json.Unmarshal any_url unreachable (teams_request "") []
           None
           {| Message := "Failed to send request to datasource.";
              Code := ERROR_CODE_INTERNAL |}).
  vm_compute. reflexivity.
Defined.

(** X13 at the third scenario: the call returns the last page, and its
    effects are the request, the read, the close and the cancel. *)
Lemma GetPage_effects_last_page :
  snd (GetPage json.Unmarshal any_url (answering (ok_with last_page_body))
         (teams_request "") [])
  = [EvDo (outbound_request (teams_request "") 0); EvReadAll; EvBodyClose; EvCancel].
Proof.
  destruct (GetPage_effects_on_return json.Unmarshal any_url
              (answering (ok_with last_page_body)) (teams_request "") []
              (Some {| Response.StatusCode := 200;
                       Response.RetryAfterHeader := "";
                       Response.Objects := Some [];
                       Response.NextCursor := "" |})
              None)
    as [(H & _) | (offset & Hc & _ & [H | H])].
  - vm_compute. reflexivity.
  - vm_compute in H. discriminate H.
  - vm_compute in Hc. injection Hc as <-. vm_compute in H. discriminate H.
  - vm_compute in Hc. injection Hc as <-. exact H.
Defined.

(** X14 at the body [null]: the call panics, and the body has been closed
    and the cancel run. *)
Lemma GetPage_null_body_panics_after_close :
  (exists reason,
     fst (GetPage json.Unmarshal any_url (answering (ok_with null_body))
            (teams_request "") [])
     = Panicked reason)
  /\ snd (GetPage json.Unmarshal any_url (answering (ok_with null_body))
            (teams_request "") [])
     = [EvDo (outbound_request (teams_request "") 0); EvReadAll; EvBodyClose; EvCancel].
Proof.
  destruct (GetPage_panics_iff_nil_envelope json.Unmarshal any_url
              (answering (ok_with null_body)) (teams_request "") 0
              (ok_with null_body) [])
    as [Hiff Htr]; [reflexivity | reflexivity | reflexivity |].
  assert (Hp : exists reason,
                 fst (GetPage json.Unmarshal any_url (answering (ok_with null_body))
                        (teams_request "") [])
                 = Panicked reason).
  { apply Hiff. split; [reflexivity |]. exists null_body.
    split; [reflexivity | vm_compute; reflexivity]. }
  split; [exact Hp | exact (Htr Hp)].
Defined.
